(** * BaseElement: a page-object wrapper over a browser driver

    Shallow embedding of [src/model/elements/base_element.py].

    The wrapper binds a driver, a locator strategy and a selector template,
    resolves live nodes on every call and translates the driver's signals
    into the project's own errors.  Python exceptions are modelled by a sum
    type, the mutable object and the browser session by explicit state
    passing in a small state-and-error monad. *)

From Stdlib Require Import ZArith List String Ascii Lia DecimalString DecimalPos DecimalN.
Import ListNotations.

Local Open Scope string_scope.
Local Open Scope Z_scope.

(** ** Exceptions *)

(** Modelled from the spec: the project's error classes, declared in
    [model/errors/element.py], which is not among the sources.  They are the
    four errors of the spec's taxonomy; each carries a descriptor of the
    element, the page URL and free-form context.  A constructor records the
    positional arguments of a [raise] site in order: descriptor, URL, then
    the remaining arguments. *)
Inductive element_error : Type :=
| ElementNotFoundError (descriptor url : string) (context : list string)
| ElementNotClickableError (descriptor url : string) (context : list string)
| ElementNotVisibleError (descriptor url : string) (context : list string)
| ElementVisibleError (descriptor url : string) (context : list string).

(** The exceptions the module raises, catches or lets through.

    [NoSuchElementException], [TimeoutException] and
    [ElementClickInterceptedException] are the driver library's signals named
    in the [except] clauses; [IndexError], [KeyError] and [ValueError] are the
    built-in ones raised by list indexing and by [str.format];
    [OtherException] stands for any other class (a stale reference, an invalid
    selector, a lost session ...), which no handler of the module catches;
    [ElementError] is one of the project's own. *)
Inductive exn : Type :=
| NoSuchElementException
| TimeoutException
| ElementClickInterceptedException
| IndexError
| KeyError (key : string)
| ValueError (msg : string)
| OtherException (name : string)
| ElementError (e : element_error).

Coercion ElementError : element_error >-> exn.

(** The classes that appear in an [except] clause of the module. *)
Inductive exn_class : Type :=
| CNoSuchElementException
| CTimeoutException
| CElementClickInterceptedException
| CIndexError.

(** Modelled from the spec: the place of the project's errors among the
    driver's classes, which [model/errors/element.py] declares.  The spec has
    the immediate checks swallow the not-found error of a lookup into
    [False], and their only handler is [except NoSuchElementException]: so
    [ElementNotFoundError] is a kind of [NoSuchElementException].  The spec
    relates no other project error to a class caught in the module.

    [isinstance e c]: would [except c] catch [e]? *)
Definition isinstance (e : exn) (c : exn_class) : bool :=
  match c, e with
  | CNoSuchElementException, NoSuchElementException => true
  | CNoSuchElementException, ElementError (ElementNotFoundError _ _ _) => true
  | CTimeoutException, TimeoutException => true
  | CElementClickInterceptedException, ElementClickInterceptedException => true
  | CIndexError, IndexError => true
  | _, _ => false
  end.

(** A fallible value: [inl e] is a raised exception, [inr v] a result. *)
Definition result (A : Type) : Type := (exn + A)%type.

(** The outcome of a call that raised [e]. *)
Definition raised {A : Type} (e : exn) : result A := inl e.

(** ** Python built-ins used by the module *)

Module Py.

Definition squote : ascii := "'"%char.
Definition dquote : ascii := "034"%char.
Definition backslash : ascii := "\"%char.
Definition lbrace : ascii := "{"%char.
Definition rbrace : ascii := "}"%char.

Definition str1 (c : ascii) : string := String c EmptyString.

Fixpoint contains_char (c : ascii) (s : string) : bool :=
  match s with
  | EmptyString => false
  | String a s' => Ascii.eqb a c || contains_char c s'
  end.

(** [repr] of an [int]. *)
Definition repr_int (z : Z) : string := NilZero.string_of_int (Z.to_int z).

Definition hex_digit (n : nat) : ascii :=
  match n with
  | 0%nat => "0" | 1%nat => "1" | 2%nat => "2" | 3%nat => "3"
  | 4%nat => "4" | 5%nat => "5" | 6%nat => "6" | 7%nat => "7"
  | 8%nat => "8" | 9%nat => "9" | 10%nat => "a" | 11%nat => "b"
  | 12%nat => "c" | 13%nat => "d" | 14%nat => "e" | _ => "f"
  end%char.

(** One character of [repr] of a [str] quoted with [q].  The model is exact
    on ASCII text.  A byte above 127 is part of a character outside ASCII,
    which the interpreter prints as it is when the character is printable
    and escapes otherwise; the model keeps such bytes, so beyond ASCII it
    gives the interpreter's answer for printable characters only. *)
Definition repr_char (q c : ascii) : string :=
  let n := nat_of_ascii c in
  if Ascii.eqb c backslash then String backslash (str1 backslash)
  else if Ascii.eqb c q then String backslash (str1 q)
  else if Nat.eqb n 9 then String backslash "t"
  else if Nat.eqb n 10 then String backslash "n"
  else if Nat.eqb n 13 then String backslash "r"
  else if (Nat.ltb n 32 || Nat.eqb n 127)%bool
       then String backslash
              (String "x" (String (hex_digit (n / 16)) (str1 (hex_digit (n mod 16)))))
  else str1 c.

Fixpoint repr_chars (q : ascii) (s : string) : string :=
  match s with
  | EmptyString => EmptyString
  | String c s' => repr_char q c ++ repr_chars q s'
  end.

(** [repr] of a [str]: single quotes, unless the text holds a single quote
    and no double quote. *)
Definition repr_str (s : string) : string :=
  let q := if (contains_char squote s && negb (contains_char dquote s))%bool
           then dquote else squote in
  String q (repr_chars q s ++ str1 q).

(** [x or ''] on an optional [str]: [None] and the empty string are falsy. *)
Definition or_empty (x : option string) : string :=
  match x with
  | Some (String c s) => String c s
  | _ => EmptyString
  end.

(** *** [str.format] *)

(** Keyword arguments, looked up by name. *)
Fixpoint kwargs_get (kwargs : list (string * string)) (name : string)
  : option string :=
  match kwargs with
  | [] => None
  | (k, v) :: rest => if String.eqb k name then Some v else kwargs_get rest name
  end.

(** Can a character stand in the name of a plain replacement field?  It
    must be an ASCII character, and not the mark of a conversion, a format
    specification, an attribute, an index or a nested field. *)
Definition plain_char (c : ascii) : bool :=
  (Nat.ltb (nat_of_ascii c) 128
   && negb (Ascii.eqb c "!"%char || Ascii.eqb c ":"%char || Ascii.eqb c "."%char
            || Ascii.eqb c "["%char || Ascii.eqb c lbrace))%bool.

(** The largest index every interpreter reads alike: past the largest
    [Py_ssize_t], which depends on the platform, the interpreter raises
    [ValueError] instead of [IndexError]. *)
Definition max_index : N := 2147483647.

(** Numbering of the positional fields seen so far. *)
Inductive numbering : Type :=
| NoneYet
| Automatic (next : nat)
| Manual.

(** The value of one plain replacement field, or [None] for an index past
    [max_index], which the model does not interpret. *)
Definition field_value (name : string) (num : numbering)
           (args : list string) (kwargs : list (string * string))
  : option (result (string * numbering)) :=
  match name with
  | EmptyString =>
      match num with
      | Manual =>
          Some (inl (ValueError
                       "cannot switch from manual field specification to automatic field numbering"))
      | NoneYet | Automatic _ =>
          let i := match num with Automatic n => n | _ => O end in
          match nth_error args i with
          | Some v => Some (inr (v, Automatic (S i)))
          | None => Some (inl IndexError)
          end
      end
  | _ =>
      match NilZero.uint_of_string name with
      | Some u =>
          let i := N.of_uint u in
          if (max_index <? i)%N then None
          else
            match num with
            | Automatic _ =>
                Some (inl (ValueError
                             "cannot switch from automatic field numbering to manual field specification"))
            | NoneYet | Manual =>
                if (i <? N.of_nat (List.length args))%N then
                  match nth_error args (N.to_nat i) with
                  | Some v => Some (inr (v, Manual))
                  | None => Some (inl IndexError)
                  end
                else Some (inl IndexError)
            end
      | None =>
          match kwargs_get kwargs name with
          | Some v => Some (inr (v, num))
          | None => Some (inl (KeyError name))
          end
      end
  end.

(** Where the scanner stands in the template. *)
Inductive scan : Type :=
| Text
| Opened
| InField (name : string)
| Closed.

Definition emit (c : ascii) (r : option (result string)) : option (result string) :=
  match r with
  | Some (inr out) => Some (inr (String c out))
  | other => other
  end.

Definition emit_str (v : string) (r : option (result string))
  : option (result string) :=
  match r with
  | Some (inr out) => Some (inr (v ++ out))
  | other => other
  end.

(** The scanner of [str.format], left to right, on the fragment of plain
    fields ([{}], [{N}], [{name}] with an ASCII name) and [str] arguments.
    Doubled braces are literal braces; a lone closing brace and an unclosed
    field are [ValueError]s; a field is substituted as soon as it closes, so
    the first failure met is the one raised.  The answer is [None] when the
    scan meets a field outside the fragment before it ends: a conversion, a
    format specification, an attribute, an index, a nested field, a name
    with a character outside ASCII, or an index past [max_index]. *)
Fixpoint format_scan (s : string) (mode : scan) (num : numbering)
         (args : list string) (kwargs : list (string * string))
  : option (result string) :=
  match s with
  | EmptyString =>
      match mode with
      | Text => Some (inr EmptyString)
      | Opened => Some (inl (ValueError "Single '{' encountered in format string"))
      | InField _ => Some (inl (ValueError "expected '}' before end of string"))
      | Closed => Some (inl (ValueError "Single '}' encountered in format string"))
      end
  | String c s' =>
      match mode with
      | Text =>
          if Ascii.eqb c lbrace then format_scan s' Opened num args kwargs
          else if Ascii.eqb c rbrace then format_scan s' Closed num args kwargs
          else emit c (format_scan s' Text num args kwargs)
      | Opened =>
          if Ascii.eqb c lbrace then emit lbrace (format_scan s' Text num args kwargs)
          else if Ascii.eqb c rbrace then
            match field_value EmptyString num args kwargs with
            | Some (inr (v, num')) => emit_str v (format_scan s' Text num' args kwargs)
            | Some (inl e) => Some (inl e)
            | None => None
            end
          else if plain_char c then format_scan s' (InField (str1 c)) num args kwargs
          else None
      | InField name =>
          if Ascii.eqb c rbrace then
            match field_value name num args kwargs with
            | Some (inr (v, num')) => emit_str v (format_scan s' Text num' args kwargs)
            | Some (inl e) => Some (inl e)
            | None => None
            end
          else if plain_char c then
            format_scan s' (InField (name ++ str1 c)) num args kwargs
          else None
      | Closed =>
          if Ascii.eqb c rbrace then emit rbrace (format_scan s' Text num args kwargs)
          else Some (inl (ValueError "Single '}' encountered in format string"))
      end
  end.

(** What the interpreter answers for a template, positional and keyword
    arguments. *)
Definition formatter : Type :=
  string -> list string -> list (string * string) -> result string.

(** [template.format] applied to positional and keyword arguments: the
    scanner's answer on the fragment, and [beyond], the interpreter itself,
    on every other template. *)
Definition str_format (beyond : formatter) (template : string)
           (args : list string) (kwargs : list (string * string)) : result string :=
  match format_scan template Text NoneYet args kwargs with
  | Some r => r
  | None => beyond template args kwargs
  end.

End Py.

(** ** List subscription *)

Module PyList.

(** A subscript is an [int] or a [slice(start, stop, step)], where a
    missing bound is [None]. *)
Inductive index : Type :=
| Int (i : Z)
| Slice (start stop step : option Z).

Definition repr_bound (b : option Z) : string :=
  match b with
  | Some z => Py.repr_int z
  | None => "None"
  end.

(** [repr] of a subscript, as the f-string [{index=}] prints it. *)
Definition repr_index (ix : index) : string :=
  match ix with
  | Int i => Py.repr_int i
  | Slice a b c =>
      "slice(" ++ repr_bound a ++ ", " ++ repr_bound b ++ ", " ++ repr_bound c ++ ")"
  end.

Section Subscript.
Context {A : Type}.

Definition len (l : list A) : Z := Z.of_nat (List.length l).

(** The item at a position already known to be non-negative. *)
Definition item_at (l : list A) (i : Z) : option A :=
  if i <? 0 then None else nth_error l (Z.to_nat i).

(** [l[i]]: a negative [i] counts from the end; out of range is
    [IndexError]. *)
Definition get_int (l : list A) (i : Z) : result A :=
  let i' := if i <? 0 then i + len l else i in
  match item_at l i' with
  | Some x => inr x
  | None => inl IndexError
  end.

(** A bound of a slice brought into the list, as the interpreter clamps
    it. *)
Definition adjust (length step i : Z) : Z :=
  if i <? 0 then
    let i' := i + length in
    if i' <? 0 then (if step <? 0 then -1 else 0) else i'
  else if length <=? i then (if step <? 0 then length - 1 else length)
  else i.

(** First position, step and number of items of a slice of a list of
    [length] items. *)
Definition slice_indices (length : Z) (start stop : option Z) (step : Z)
  : Z * Z * Z :=
  let start' := match start with
                | Some a => adjust length step a
                | None => if step <? 0 then length - 1 else 0
                end in
  let stop' := match stop with
               | Some b => adjust length step b
               | None => if step <? 0 then -1 else length
               end in
  let n := if step <? 0
           then (if stop' <? start' then (start' - stop' - 1) / (- step) + 1 else 0)
           else (if start' <? stop' then (stop' - start' - 1) / step + 1 else 0) in
  (start', step, n).

(** [n] items from position [cur] on, [step] apart. *)
Fixpoint take_every (l : list A) (cur step : Z) (n : nat) : list A :=
  match n with
  | O => []
  | S n' =>
      match item_at l cur with
      | Some x => x :: take_every l (cur + step) step n'
      | None => []
      end
  end.

(** [l[start:stop:step]]: bounds are clamped, never out of range; a zero
    step is a [ValueError]. *)
Definition get_slice (l : list A) (start stop step : option Z)
  : result (list A) :=
  let step' := match step with Some c => c | None => 1 end in
  if step' =? 0 then inl (ValueError "slice step cannot be zero")
  else
    let '(cur, st, n) := slice_indices (len l) start stop step' in
    inr (take_every l cur st (Z.to_nat n)).

End Subscript.

End PyList.

(** ** The driver *)

(** A handle on a live node of the document. *)
Record WebElement : Type := { element_id : string }.

(** The conditions the module waits for; each carries the locator pair. *)
Inductive expected_condition : Type :=
| element_to_be_clickable (locator selector : string)
| visibility_of_element_located (locator selector : string).

(** The driver is an external collaborator: a browser session whose state
    [World] is opaque.  Reading commands answer from the current state;
    [node_click] and [until] also move the session on.

    - [locate by value w]: the nodes that [value] selects under the strategy
      [by], in document order;
    - [until c timeout w]: the driver's wait, polling [c] for up to [timeout]
      seconds; it raises [TimeoutException] when [c] did not come to hold. *)
Record WebDriver (World : Type) : Type := {
  current_url : World -> result string;
  locate : string -> string -> World -> result (list WebElement);
  node_click : WebElement -> World -> result unit * World;
  node_is_displayed : WebElement -> World -> result bool;
  node_is_enabled : WebElement -> World -> result bool;
  node_text : WebElement -> World -> result string;
  node_get_attribute : WebElement -> string -> World -> result (option string);
  until : expected_condition -> Z -> World -> result WebElement * World
}.

Arguments current_url {World}.
Arguments locate {World}.
Arguments node_click {World}.
Arguments node_is_displayed {World}.
Arguments node_is_enabled {World}.
Arguments node_text {World}.
Arguments node_get_attribute {World}.
Arguments until {World}.

(** [driver.find_elements(by, value)]: every match, possibly none. *)
Definition find_elements {World} (driver : WebDriver World)
           (by_ value : string) (w : World) : result (list WebElement) :=
  locate driver by_ value w.

(** [driver.find_element(by, value)]: the first match, or
    [NoSuchElementException] when there is none. *)
Definition find_element {World} (driver : WebDriver World)
           (by_ value : string) (w : World) : result WebElement :=
  match locate driver by_ value w with
  | inl e => inl e
  | inr [] => inl NoSuchElementException
  | inr (x :: _) => inr x
  end.

(** ** State and control *)

(** The attributes of a [BaseElement]; its [driver] attribute is the shared
    session, kept in the state beside the object. *)
Record BaseElement : Type := {
  locator : string;
  selector : string
}.

Record State (World : Type) : Type := {
  self : BaseElement;
  world : World
}.

Arguments self {World}.
Arguments world {World}.
Arguments Build_State {World}.

(** A command: runs from a state, raises or returns, and leaves a state. *)
Definition M (World A : Type) : Type :=
  State World -> result A * State World.

Section Control.
Context {World : Type}.

Definition ret {A} (x : A) : M World A := fun st => (inr x, st).

Definition raise {A} (e : exn) : M World A := fun st => (inl e, st).

Definition bind {A B} (c : M World A) (k : A -> M World B) : M World B :=
  fun st =>
    match c st with
    | (inr x, st') => k x st'
    | (inl e, st') => (inl e, st')
    end.

(** [try: c / except cls: h]. *)
Definition try_except {A} (c : M World A) (cls : exn_class)
           (h : M World A) : M World A :=
  fun st =>
    match c st with
    | (inl e, st') => if isinstance e cls then h st' else (inl e, st')
    | (inr x, st') => (inr x, st')
    end.

(** [try: c / finally: f]: [f] runs on every way out of [c]; what [c]
    raised or returned stands unless [f] itself raises. *)
Definition try_finally {A} (c : M World A) (f : M World unit) : M World A :=
  fun st =>
    match c st with
    | (r, st') =>
        match f st' with
        | (inr _, st'') => (r, st'')
        | (inl e, st'') => (inl e, st'')
        end
    end.

(** A fallible pure value as a command. *)
Definition lift {A} (r : result A) : M World A := fun st => (r, st).

(** A reading command of the driver. *)
Definition ask {A} (f : World -> result A) : M World A :=
  fun st => (f (world st), st).

(** The state once the session has moved on to [w']. *)
Definition moved_to (w' : World) (st : State World) : State World :=
  {| self := self st; world := w' |}.

(** A command of the driver that moves the session on. *)
Definition act {A} (f : World -> result A * World) : M World A :=
  fun st =>
    let '(r, w') := f (world st) in
    (r, moved_to w' st).

Definition get_self : M World BaseElement := fun st => (inr (self st), st).

(** [self.selector]. *)
Definition get_selector : M World string :=
  fun st => (inr (selector (self st)), st).

(** The state once the object's selector is [s]. *)
Definition with_selector (s : string) (st : State World) : State World :=
  {| self := {| locator := locator (self st); selector := s |};
     world := world st |}.

(** [self.selector = s]. *)
Definition set_selector (s : string) : M World unit :=
  fun st => (inr tt, with_selector s st).

End Control.

Declare Scope py_scope.
Delimit Scope py_scope with py.
Notation "x <- c ;; k" := (bind c (fun x => k))
  (at level 61, c at next level, right associativity) : py_scope.
Notation "c ;; k" := (bind c (fun _ => k))
  (at level 61, right associativity) : py_scope.

Local Open Scope py_scope.

(** ** BaseElement *)

Definition BASIC_TIMEOUT : Z := 5.

(** What a subscription returns: one element for an [int], a list for a
    [slice]. *)
Inductive item : Type :=
| One (e : WebElement)
| Many (l : list WebElement).

(** [l[index]] on the resolved list. *)
Definition subscript (l : list WebElement) (index : PyList.index) : result item :=
  match index with
  | PyList.Int i =>
      match PyList.get_int l i with
      | inr e => inr (One e)
      | inl x => inl x
      end
  | PyList.Slice a b c =>
      match PyList.get_slice l a b c with
      | inr es => inr (Many es)
      | inl x => inl x
      end
  end.

(** [__repr__], which [str(self)] falls back on: the f-string
    [{self.selector=}]. *)
Definition repr (el : BaseElement) : string :=
  "self.selector=" ++ Py.repr_str (selector el).

(** [__init__(driver, selector, locator)]: the selector comes before the
    locator; the driver is the shared session. *)
Definition init (selector locator : string) : BaseElement :=
  {| locator := locator; selector := selector |}.

(** The value of an argument left out of a call. *)
Definition default {A} (d : A) (x : option A) : A :=
  match x with
  | Some v => v
  | None => d
  end.

Section Methods.
Context {World : Type} (driver : WebDriver World).

Definition str_self : M World string :=
  el <- get_self ;; ret (repr el).

(** [raise cls(str(self), self.driver.current_url, *context)]: the
    arguments are evaluated left to right before the error is built. *)
Definition raise_error {A}
           (cls : string -> string -> list string -> element_error)
           (context : list string) : M World A :=
  descr <- str_self ;;
  url <- ask (current_url driver) ;;
  raise (ElementError (cls descr url context)).

(** Property [elements]. *)
Definition elements : M World (list WebElement) :=
  el <- get_self ;;
  ask (find_elements driver (locator el) (selector el)).

(** Property [element]. *)
Definition element : M World WebElement :=
  try_except
    (el <- get_self ;;
     ask (find_element driver (locator el) (selector el)))
    CNoSuchElementException
    (raise_error ElementNotFoundError []).

(** [__getitem__]. *)
Definition getitem (index : PyList.index) : M World item :=
  try_except
    (els <- elements ;;
     lift (subscript els index))
    CIndexError
    (raise_error ElementNotFoundError
       ["Element with index=" ++ PyList.repr_index index ++ " is not exist."]).

(** [__len__]. *)
Definition len : M World Z :=
  els <- elements ;; ret (PyList.len els).

(** [__iter__]: an iterator over the list resolved at the call, given here
    by the items it yields, in order. *)
Definition iter : M World (list WebElement) :=
  elements.

Definition is_enabled : M World bool :=
  e <- element ;; ask (node_is_enabled driver e).

Definition click : M World unit :=
  try_except
    (e <- element ;;
     act (node_click driver e))
    CElementClickInterceptedException
    (raise_error ElementNotClickableError []).

(** The context manager [format], run around the body of its [with]
    block.  The generator runs up to its [yield] on entry; the body then
    runs with the same object; on exit the generator is resumed, or the
    body's exception is thrown into it at the [yield], so that the
    [finally] clause runs either way.  [fmt] is the substitution. *)
Definition format_with (fmt : Py.formatter)
           {A} (args : list string) (kwargs : list (string * string))
           (body : M World A) : M World A :=
  original_selector <- get_selector ;;
  try_finally
    (s <- lift (fmt original_selector args kwargs) ;;
     set_selector s ;;
     body)
    (set_selector original_selector).

(** [format]: the substitution is [str.format], with [beyond] the
    interpreter's answer on the templates the scanner does not read. *)
Definition format (beyond : Py.formatter) {A} (args : list string)
           (kwargs : list (string * string)) (body : M World A) : M World A :=
  format_with (Py.str_format beyond) args kwargs body.

Definition is_clickable (timeout : option Z) : M World bool :=
  let timeout := default BASIC_TIMEOUT timeout in
  try_except
    (el <- get_self ;;
     act (until driver (element_to_be_clickable (locator el) (selector el)) timeout) ;;
     ret true)
    CTimeoutException
    (ret false).

Definition is_visible (timeout : option Z) : M World bool :=
  let timeout := default BASIC_TIMEOUT timeout in
  try_except
    (el <- get_self ;;
     act (until driver (visibility_of_element_located (locator el) (selector el)) timeout) ;;
     ret true)
    CTimeoutException
    (ret false).

Definition is_present_now : M World bool :=
  try_except
    (element ;; ret true)
    CNoSuchElementException
    (ret false).

Definition is_visible_now : M World bool :=
  try_except
    (e <- element ;;
     ask (node_is_displayed driver e))
    CNoSuchElementException
    (ret false).

Definition wait_for_clickability (timeout : option Z) (error_msg : option string)
  : M World WebElement :=
  let timeout := default BASIC_TIMEOUT timeout in
  clickable <- is_clickable (Some timeout) ;;
  if negb clickable then
    let timeout_info := "Error raised after timeout=" ++ Py.repr_int timeout ++ "s." in
    raise_error ElementNotClickableError [Py.or_empty error_msg; timeout_info]
  else element.

Definition text : M World string :=
  e <- element ;; ask (node_text driver e).

Definition get_attribute (name : string) : M World (option string) :=
  e <- element ;; ask (node_get_attribute driver e name).

End Methods.

(** ** The substitution as the spec states it

    The spec reads a selector as a template: literal text with positional
    and named placeholders, which [format] replaces by the given arguments.
    The definitions of this module follow those words, for comparison with
    the scanner of [str.format]; none of them comes from the code. *)

Module Template.

Inductive piece : Type :=
| Lit (text : string)
| Auto
| Index (n : N)
| Named (name : string).

(** Literal text as it is written in a template: braces are doubled. *)
Fixpoint escape (s : string) : string :=
  match s with
  | EmptyString => EmptyString
  | String c s' =>
      if (Ascii.eqb c "{"%char || Ascii.eqb c "}"%char)%bool
      then String c (String c (escape s'))
      else String c (escape s')
  end.

Definition digits (n : N) : string := NilZero.string_of_uint (N.to_uint n).

Definition render_piece (p : piece) : string :=
  match p with
  | Lit text => escape text
  | Auto => "{}"
  | Index n => "{" ++ digits n ++ "}"
  | Named name => "{" ++ name ++ "}"
  end.

(** The text of a template. *)
Fixpoint render (t : list piece) : string :=
  match t with
  | [] => EmptyString
  | p :: t' => render_piece p ++ render t'
  end.

(** The value given for a keyword. *)
Definition keyword (kwargs : list (string * string)) (name : string)
  : option string :=
  match find (fun kv => String.eqb (fst kv) name) kwargs with
  | Some kv => Some (snd kv)
  | None => None
  end.

(** The template with every placeholder replaced: an automatic placeholder
    by the next positional argument, counted from [next]; an indexed one by
    the argument at its index; a named one by the keyword's value.  [None]
    when an argument is missing. *)
Fixpoint substitute (t : list piece) (next : nat) (args : list string)
         (kwargs : list (string * string)) : option string :=
  match t with
  | [] => Some EmptyString
  | Lit text :: t' =>
      match substitute t' next args kwargs with
      | Some out => Some (text ++ out)
      | None => None
      end
  | Auto :: t' =>
      match nth_error args next, substitute t' (S next) args kwargs with
      | Some v, Some out => Some (v ++ out)
      | _, _ => None
      end
  | Index n :: t' =>
      match nth_error args (N.to_nat n), substitute t' next args kwargs with
      | Some v, Some out => Some (v ++ out)
      | _, _ => None
      end
  | Named name :: t' =>
      match keyword kwargs name, substitute t' next args kwargs with
      | Some v, Some out => Some (v ++ out)
      | _, _ => None
      end
  end.

Definition is_auto (p : piece) : bool :=
  match p with Auto => true | _ => false end.

Definition is_index (p : piece) : bool :=
  match p with Index _ => true | _ => false end.

(** A character of a keyword name: ASCII, and none of the marks that give a
    placeholder another meaning. *)
Definition name_char (c : ascii) : bool :=
  (Nat.ltb (nat_of_ascii c) 128
   && negb (existsb (Ascii.eqb c) ["!"; ":"; "."; "["; "{"; "}"]%char))%bool.

(** A keyword name: not empty, not a number, made of [name_char]s. *)
Definition valid_name (name : string) : bool :=
  (negb (String.eqb name EmptyString)
   && match NilZero.uint_of_string name with
      | Some _ => false
      | None => true
      end
   && forallb name_char (list_ascii_of_string name))%bool.

Definition piece_ok (p : piece) : bool :=
  match p with
  | Lit _ | Auto => true
  | Index n => (n <=? 2147483647)%N
  | Named name => valid_name name
  end.

(** A template [str.format] accepts: automatic and indexed placeholders are
    not mixed, indexes are moderate and names are keyword names. *)
Definition well_formed (t : list piece) : bool :=
  ((forallb (fun p => negb (is_auto p)) t || forallb (fun p => negb (is_index p)) t)
   && forallb piece_ok t)%bool.

(** The numbering [num] the scanner has reached fits the rest [t] of a
    template whose next automatic placeholder takes argument [next]. *)
Definition numbering_fits (num : Py.numbering) (next : nat) (t : list piece)
  : Prop :=
  match num with
  | Py.NoneYet =>
      next = O
      /\ (forallb (fun p => negb (is_auto p)) t = true
          \/ forallb (fun p => negb (is_index p)) t = true)
  | Py.Automatic n =>
      n = next /\ forallb (fun p => negb (is_index p)) t = true
  | Py.Manual => forallb (fun p => negb (is_auto p)) t = true
  end.

End Template.

(** ** What the driver answers for an element

    The driver's answers to the commands a [BaseElement] issues, named so
    that statements about the methods can refer to them. *)

Section DriverAnswers.
Context {World : Type} (driver : WebDriver World).

(** The nodes the element's own locator pair selects. *)
Definition located (st : State World) : result (list WebElement) :=
  locate driver (locator (self st)) (selector (self st)) (world st).

(** The wait that [is_clickable] issues. *)
Definition clickable_wait (timeout : option Z) (st : State World)
  : result WebElement * World :=
  until driver
    (element_to_be_clickable (locator (self st)) (selector (self st)))
    (default BASIC_TIMEOUT timeout) (world st).

(** The wait that [is_visible] issues. *)
Definition visible_wait (timeout : option Z) (st : State World)
  : result WebElement * World :=
  until driver
    (visibility_of_element_located (locator (self st)) (selector (self st)))
    (default BASIC_TIMEOUT timeout) (world st).

End DriverAnswers.

(** ** A scripted browser

    A small driver used to run the methods on concrete pages: the document
    is a list of nodes, each selected by one locator pair, and [upcoming]
    lists the documents the page will show at the next polls of a wait. *)

Module Fake.

Record Node : Type := {
  handle : WebElement;
  by_ : string;
  value : string;
  displayed : bool;
  enabled : bool;
  obstructed : bool
}.

Record Browser : Type := {
  url : string;
  dom : list Node;
  upcoming : list (list Node)
}.

Definition selects (b v : string) (n : Node) : bool :=
  (String.eqb (by_ n) b && String.eqb (value n) v)%bool.

Definition matches (b v : string) (w : Browser) : list Node :=
  filter (selects b v) (dom w).

Definition node_of (e : WebElement) (w : Browser) : result Node :=
  match find (fun n => String.eqb (element_id (handle n)) (element_id e)) (dom w) with
  | Some n => inr n
  | None => inl (OtherException "StaleElementReferenceException")
  end.

Definition read {A} (f : Node -> A) (e : WebElement) (w : Browser) : result A :=
  match node_of e w with
  | inr n => inr (f n)
  | inl x => inl x
  end.

Definition do_click (e : WebElement) (w : Browser) : result unit * Browser :=
  match node_of e w with
  | inr n => if obstructed n then (inl ElementClickInterceptedException, w)
             else (inr tt, w)
  | inl x => (inl x, w)
  end.

(** The value of a condition on the current document. *)
Definition holds (c : expected_condition) (w : Browser) : option WebElement :=
  match c with
  | element_to_be_clickable b v =>
      match matches b v w with
      | n :: _ => if (displayed n && enabled n)%bool then Some (handle n) else None
      | [] => None
      end
  | visibility_of_element_located b v =>
      match matches b v w with
      | n :: _ => if displayed n then Some (handle n) else None
      | [] => None
      end
  end.

(** Polls a condition, moving to the next document between two polls. *)
Fixpoint poll (more : nat) (c : expected_condition) (w : Browser)
  : result WebElement * Browser :=
  match holds c w with
  | Some e => (inr e, w)
  | None =>
      match more, upcoming w with
      | S more', next :: later =>
          poll more' c {| url := url w; dom := next; upcoming := later |}
      | _, _ => (inl TimeoutException, w)
      end
  end.

(** Two polls a second. *)
Definition wait (c : expected_condition) (timeout : Z) (w : Browser)
  : result WebElement * Browser :=
  poll (Z.to_nat (2 * timeout)) c w.

Definition driver : WebDriver Browser := {|
  current_url := fun w => inr (url w);
  locate := fun b v w => inr (map handle (matches b v w));
  node_click := do_click;
  node_is_displayed := read displayed;
  node_is_enabled := read enabled;
  node_text := read (fun n => element_id (handle n));
  node_get_attribute := fun e _ => read (fun _ => None) e;
  until := wait
|}.

(** The same driver once the window is gone: waits and clicks fail at
    once. *)
Definition closed : WebDriver Browser := {|
  current_url := current_url driver;
  locate := locate driver;
  node_click := fun _ w => (inl (OtherException "NoSuchWindowException"), w);
  node_is_displayed := node_is_displayed driver;
  node_is_enabled := node_is_enabled driver;
  node_text := node_text driver;
  node_get_attribute := node_get_attribute driver;
  until := fun _ _ w => (inl (OtherException "NoSuchWindowException"), w)
|}.

(** A stand-in for the interpreter on templates outside the scanner's
    fragment; the examples below never reach it. *)
Definition beyond : Py.formatter :=
  fun _ _ _ => inl (OtherException "NotImplementedError").

Definition node (id b v : string) (shown : bool) : Node :=
  {| handle := {| element_id := id |}; by_ := b; value := v;
     displayed := shown; enabled := true; obstructed := negb shown |}.

(** A page with two rows and a covered button, which a later document
    uncovers. *)
Definition page : Browser := {|
  url := "http://localhost/rows";
  dom := [ node "row-1" "css selector" ".row" true;
           node "row-2" "css selector" ".row" true;
           node "save" "id" "save" false ];
  upcoming := [ [ node "save" "id" "save" true ] ]
|}.

Definition rows : BaseElement :=
  {| locator := "css selector"; selector := ".row" |}.

Definition save : BaseElement :=
  {| locator := "id"; selector := "save" |}.

Definition missing : BaseElement :=
  {| locator := "id"; selector := "nothing" |}.

Definition on (el : BaseElement) : State Browser :=
  {| self := el; world := page |}.

End Fake.

(** * Properties *)

(** ** Built-ins *)



Section SubscriptFacts.
Context {A : Type}.
Implicit Types (l : list A) (i : Z).

Lemma len_nonneg l : 0 <= PyList.len l.
Proof. unfold PyList.len; lia. Qed.

Lemma item_at_none l i : i < 0 \/ PyList.len l <= i -> PyList.item_at l i = None.
Proof.
  unfold PyList.item_at, PyList.len; intros [H | H].
  - destruct (Z.ltb_spec i 0); [reflexivity | lia].
  - destruct (Z.ltb_spec i 0); [reflexivity |].
    apply nth_error_None; lia.
Qed.

Lemma item_at_some l i :
  0 <= i < PyList.len l -> exists x, PyList.item_at l i = Some x.
Proof.
  unfold PyList.item_at, PyList.len; intros H.
  destruct (Z.ltb_spec i 0); [lia |].
  destruct (nth_error l (Z.to_nat i)) eqn:E; [eauto |].
  apply nth_error_None in E; lia.
Qed.

Lemma item_at_In l i x : PyList.item_at l i = Some x -> In x l.
Proof.
  unfold PyList.item_at; destruct (i <? 0); [discriminate |].
  apply nth_error_In.
Qed.

(** An [int] at or past the end is out of range. *)
Lemma get_int_past_end l i : PyList.len l <= i -> PyList.get_int l i = inl IndexError.
Proof.
  intros H; pose proof (len_nonneg l); unfold PyList.get_int.
  destruct (Z.ltb_spec i 0); [lia |].
  rewrite item_at_none; [reflexivity | lia].
Qed.

(** A negative [int] within the list counts from the end. *)
Lemma get_int_negative l i :
  - PyList.len l <= i < 0 ->
  exists x, PyList.item_at l (PyList.len l + i) = Some x /\ PyList.get_int l i = inr x.
Proof.
  intros H; unfold PyList.get_int.
  destruct (Z.ltb_spec i 0); [| lia].
  destruct (item_at_some l (i + PyList.len l)) as [x Hx]; [lia |].
  exists x; rewrite Z.add_comm, Hx; auto.
Qed.

(** A negative [int] before the start is out of range. *)
Lemma get_int_before_start l i :
  i < - PyList.len l -> PyList.get_int l i = inl IndexError.
Proof.
  intros H; pose proof (len_nonneg l); unfold PyList.get_int.
  destruct (Z.ltb_spec i 0); [| lia].
  rewrite item_at_none; [reflexivity | lia].
Qed.

Lemma take_every_incl l n : forall cur step, incl (PyList.take_every l cur step n) l.
Proof.
  induction n as [| n IH]; intros cur step; simpl.
  - apply incl_nil_l.
  - destruct (PyList.item_at l cur) eqn:E.
    + apply incl_cons; [eapply item_at_In; eassumption | apply IH].
    + apply incl_nil_l.
Qed.

(** A bound never lands past the end of the list. *)
Lemma adjust_le_length length step i :
  0 <= length -> PyList.adjust length step i <= length.
Proof.
  intros H; unfold PyList.adjust.
  destruct (Z.ltb_spec i 0); [destruct (Z.ltb_spec (i + length) 0) |
                              destruct (Z.leb_spec length i)];
    destruct (Z.ltb_spec step 0); lia.
Qed.

Lemma adjust_bounds length step i :
  0 <= length ->
  (0 < step -> 0 <= PyList.adjust length step i <= length)
  /\ (step < 0 -> -1 <= PyList.adjust length step i <= length - 1).
Proof.
  intros H; unfold PyList.adjust.
  destruct (Z.ltb_spec i 0); [destruct (Z.ltb_spec (i + length) 0) |
                              destruct (Z.leb_spec length i)];
    destruct (Z.ltb_spec step 0); lia.
Qed.

(** Every position a slice visits lies in the list. *)
Lemma slice_indices_in_range length a b step cur st n :
  0 <= length -> step <> 0 ->
  PyList.slice_indices length a b step = (cur, st, n) ->
  st = step /\ 0 <= n /\ forall k, 0 <= k < n -> 0 <= cur + k * st < length.
Proof.
  intros Hl Hs; unfold PyList.slice_indices; intros E.
  injection E as <- <- <-.
  set (s0 := match a with
             | Some a' => PyList.adjust length step a'
             | None => if step <? 0 then length - 1 else 0
             end).
  set (s1 := match b with
             | Some b' => PyList.adjust length step b'
             | None => if step <? 0 then -1 else length
             end).
  assert (B0 : (0 < step -> 0 <= s0 <= length)
               /\ (step < 0 -> -1 <= s0 <= length - 1)).
  { subst s0; destruct a; [apply adjust_bounds; assumption |].
    destruct (Z.ltb_spec step 0); lia. }
  assert (B1 : (0 < step -> 0 <= s1 <= length)
               /\ (step < 0 -> -1 <= s1 <= length - 1)).
  { subst s1; destruct b; [apply adjust_bounds; assumption |].
    destruct (Z.ltb_spec step 0); lia. }
  clearbody s0 s1.
  split; [reflexivity |].
  destruct (Z.ltb_spec step 0) as [Hneg | Hpos].
  - destruct (Z.ltb_spec s1 s0) as [Hlt | Hge].
    + assert (Hq : 0 <= (s0 - s1 - 1) / - step) by (apply Z.div_pos; lia).
      assert (Hm : - step * ((s0 - s1 - 1) / - step) <= s0 - s1 - 1)
        by (apply Z.mul_div_le; lia).
      split; [lia |]; intros k Hk; nia.
    + split; [lia |]; intros k Hk; lia.
  - destruct (Z.ltb_spec s0 s1) as [Hlt | Hge].
    + assert (Hq : 0 <= (s1 - s0 - 1) / step) by (apply Z.div_pos; lia).
      assert (Hm : step * ((s1 - s0 - 1) / step) <= s1 - s0 - 1)
        by (apply Z.mul_div_le; lia).
      split; [lia |]; intros k Hk; nia.
    + split; [lia |]; intros k Hk; lia.
Qed.

Lemma take_every_length l n : forall cur step,
  (forall k, 0 <= k < Z.of_nat n -> 0 <= cur + k * step < PyList.len l) ->
  List.length (PyList.take_every l cur step n) = n.
Proof.
  induction n as [| n IH]; intros cur step H; [reflexivity |].
  simpl.
  destruct (item_at_some l cur) as [x Hx].
  { specialize (H 0); lia. }
  rewrite Hx; simpl; f_equal.
  apply IH; intros k Hk.
  specialize (H (k + 1)); lia.
Qed.

(** A slice returns as many items as the interpreter counts for it: the
    walk of [take_every] never leaves the list. *)
Lemma get_slice_length l a b step r :
  step <> 0 ->
  PyList.get_slice l a b (Some step) = inr r ->
  PyList.len r = snd (PyList.slice_indices (PyList.len l) a b step).
Proof.
  intros Hs; unfold PyList.get_slice.
  destruct (Z.eqb_spec step 0) as [E | _]; [contradiction |].
  destruct (PyList.slice_indices (PyList.len l) a b step) as [[cur st] n] eqn:E.
  destruct (slice_indices_in_range _ a b step cur st n (len_nonneg l) Hs E)
    as [-> [Hn Hk]].
  intros [= <-]; simpl.
  unfold PyList.len at 1; rewrite take_every_length; [lia |].
  intros k Hk'; apply Hk; lia.
Qed.

(** A slice with a non-zero step always returns, and only items of the
    list. *)
Lemma get_slice_total l a b c :
  c <> Some 0 -> exists r, PyList.get_slice l a b c = inr r /\ incl r l.
Proof.
  intros Hc; unfold PyList.get_slice.
  destruct (Z.eqb_spec (match c with Some c' => c' | None => 1 end) 0) as [E | E].
  - destruct c as [c' |]; [subst; contradiction | discriminate].
  - destruct (PyList.slice_indices _ a b _) as [[cur st] n].
    eexists; split; [reflexivity | apply take_every_incl].
Qed.

(** A forward slice that starts at or past the end is empty. *)
Lemma get_slice_past_end l a b :
  PyList.len l <= a -> PyList.get_slice l (Some a) b None = inr [].
Proof.
  intros H; pose proof (len_nonneg l) as Hl.
  unfold PyList.get_slice, PyList.slice_indices; simpl.
  assert (Ha : PyList.adjust (PyList.len l) 1 a = PyList.len l).
  { unfold PyList.adjust. destruct (Z.ltb_spec a 0); [lia |].
    destruct (Z.leb_spec (PyList.len l) a); [reflexivity | lia]. }
  rewrite Ha.
  assert (Hb : match b with
               | Some b' => PyList.adjust (PyList.len l) 1 b'
               | None => PyList.len l
               end <= PyList.len l).
  { destruct b; [apply adjust_le_length; assumption | lia]. }
  destruct (Z.ltb_spec (PyList.len l)
              (match b with
               | Some b' => PyList.adjust (PyList.len l) 1 b'
               | None => PyList.len l
               end)); [lia | reflexivity].
Qed.

End SubscriptFacts.

Lemma item_at_nth_error {A} (l : list A) (i : Z) (x : A) :
  PyList.item_at l i = Some x -> nth_error l (Z.to_nat i) = Some x.
Proof. unfold PyList.item_at; destruct (i <? 0); [discriminate | auto]. Qed.

Section MoreSubscriptFacts.
Context {A : Type}.
Implicit Types (l : list A) (i : Z).

Lemma get_int_in_range l i :
  0 <= i < PyList.len l ->
  exists x, nth_error l (Z.to_nat i) = Some x /\ PyList.get_int l i = inr x.
Proof.
  intros H; unfold PyList.get_int.
  destruct (Z.ltb_spec i 0); [lia |].
  destruct (item_at_some l i H) as [x Hx].
  exists x; rewrite Hx; split; [apply item_at_nth_error; exact Hx | reflexivity].
Qed.

(** An [int] subscript succeeds exactly within [-len, len). *)
Lemma get_int_ok_iff l i :
  (exists x, PyList.get_int l i = inr x) <-> - PyList.len l <= i < PyList.len l.
Proof.
  split.
  - intros [x Hx].
    destruct (Z.lt_ge_cases i (- PyList.len l)) as [Hlo | Hlo].
    { rewrite get_int_before_start in Hx by exact Hlo; discriminate. }
    destruct (Z.lt_ge_cases i (PyList.len l)) as [Hhi | Hhi]; [lia |].
    rewrite get_int_past_end in Hx by exact Hhi; discriminate.
  - intros H; destruct (Z.lt_ge_cases i 0) as [Hneg | Hpos].
    + destruct (get_int_negative l i) as [x [_ Hx]]; [lia | eauto].
    + destruct (get_int_in_range l i) as [x [_ Hx]]; [lia | eauto].
Qed.

Lemma skipn_cons_nth l : forall (k : nat) (x : A),
  nth_error l k = Some x -> skipn k l = x :: skipn (S k) l.
Proof.
  induction l as [| y l IH]; intros [| k] x H; simpl in *; try discriminate.
  - injection H as ->; reflexivity.
  - apply IH; exact H.
Qed.

Lemma take_every_S l cur step (n : nat) :
  PyList.take_every l cur step (S n)
  = match PyList.item_at l cur with
    | Some x => x :: PyList.take_every l (cur + step) step n
    | None => []
    end.
Proof. reflexivity. Qed.

(** Walking forward one by one is taking a run of the list. *)
Lemma take_every_forward l (n : nat) : forall cur,
  0 <= cur -> cur + Z.of_nat n <= PyList.len l ->
  PyList.take_every l cur 1 n = firstn n (skipn (Z.to_nat cur) l).
Proof.
  induction n as [| n IH]; intros cur H0 H1; [reflexivity |].
  rewrite take_every_S.
  destruct (item_at_some l cur) as [x Hx]; [lia |].
  rewrite Hx, (skipn_cons_nth l _ x (item_at_nth_error l cur x Hx)).
  simpl; f_equal.
  rewrite IH by lia.
  replace (Z.to_nat (cur + 1)) with (S (Z.to_nat cur)) by lia; reflexivity.
Qed.

Lemma firstn_snoc_nth l : forall (k : nat) (x : A),
  nth_error l k = Some x -> firstn (S k) l = (firstn k l ++ [x])%list.
Proof.
  induction l as [| y l IH]; intros [| k] x H; simpl in *; try discriminate.
  - injection H as ->; reflexivity.
  - f_equal; apply IH; exact H.
Qed.

(** Walking backward one by one from position [n - 1] reverses the first
    [n] items. *)
Lemma take_every_backward l (n : nat) :
  Z.of_nat n <= PyList.len l ->
  PyList.take_every l (Z.of_nat n - 1) (-1) n = rev (firstn n l).
Proof.
  induction n as [| n IH]; intros H; [reflexivity |].
  rewrite take_every_S.
  destruct (item_at_some l (Z.of_nat (S n) - 1)) as [x Hx]; [lia |].
  rewrite Hx.
  assert (Hn : nth_error l n = Some x).
  { apply item_at_nth_error in Hx.
    replace (Z.to_nat (Z.of_nat (S n) - 1)) with n in Hx by lia; exact Hx. }
  rewrite (firstn_snoc_nth l n x Hn), rev_app_distr; cbn [rev app]; f_equal.
  replace (Z.of_nat (S n) - 1 + -1) with (Z.of_nat n - 1) by lia.
  apply IH; lia.
Qed.

(** A slice with step 1 is the run between its two clamped bounds. *)
Lemma get_slice_forward l a b :
  let lo := match a with
            | Some a' => PyList.adjust (PyList.len l) 1 a'
            | None => 0
            end in
  let hi := match b with
            | Some b' => PyList.adjust (PyList.len l) 1 b'
            | None => PyList.len l
            end in
  PyList.get_slice l a b None
  = inr (firstn (Z.to_nat (hi - lo)) (skipn (Z.to_nat lo) l)).
Proof.
  intros lo hi; pose proof (len_nonneg l) as Hl.
  assert (Blo : 0 <= lo <= PyList.len l).
  { subst lo; destruct a; [apply adjust_bounds; lia | lia]. }
  assert (Bhi : 0 <= hi <= PyList.len l).
  { subst hi; destruct b; [apply adjust_bounds; lia | lia]. }
  unfold PyList.get_slice, PyList.slice_indices; simpl.
  fold lo; fold hi; clearbody lo hi.
  destruct (Z.ltb_spec lo hi) as [Hlt | Hge].
  - rewrite Z.div_1_r, take_every_forward by lia.
    do 2 f_equal; lia.
  - replace (Z.to_nat (hi - lo)) with O by lia; reflexivity.
Qed.

Lemma slice_indices_reverse length :
  0 <= length ->
  PyList.slice_indices length None None (-1) = (length - 1, -1, length).
Proof.
  intros H; unfold PyList.slice_indices.
  change (-1 <? 0) with true; cbv iota.
  destruct (Z.ltb_spec (-1) (length - 1)) as [Hlt | Hge].
  - change (- -1) with 1; rewrite Z.div_1_r; repeat f_equal; lia.
  - repeat f_equal; lia.
Qed.

(** The slice [::-1] is the list reversed. *)
Lemma get_slice_reverse l :
  PyList.get_slice l None None (Some (-1)) = inr (rev l).
Proof.
  unfold PyList.get_slice.
  change (-1 =? 0) with false; cbv iota.
  rewrite (slice_indices_reverse _ (len_nonneg l)).
  unfold PyList.len; rewrite Nat2Z.id.
  rewrite (take_every_backward l (List.length l)) by (unfold PyList.len; lia).
  rewrite firstn_all; reflexivity.
Qed.

End MoreSubscriptFacts.

Section SlicePositions.
Context {A : Type}.
Implicit Types (l : list A).

Lemma take_every_nth l (n : nat) : forall cur step (k : nat),
  (forall j, 0 <= j < Z.of_nat n -> 0 <= cur + j * step < PyList.len l) ->
  nth_error (PyList.take_every l cur step n) k
  = if (k <? n)%nat then nth_error l (Z.to_nat (cur + Z.of_nat k * step)) else None.
Proof.
  induction n as [| n IH]; intros cur step k H.
  - destruct k; reflexivity.
  - rewrite take_every_S.
    destruct (item_at_some l cur) as [x Hx]; [specialize (H 0); lia |].
    rewrite Hx.
    destruct k as [| k].
    + cbn [nth_error Nat.ltb Nat.leb].
      replace (cur + Z.of_nat 0 * step) with cur by lia.
      symmetry; apply item_at_nth_error; exact Hx.
    + cbn [nth_error]; rewrite IH.
      * change (S k <? S n)%nat with (k <? n)%nat.
        replace (cur + step + Z.of_nat k * step)
          with (cur + Z.of_nat (S k) * step) by lia.
        reflexivity.
      * intros j Hj; specialize (H (j + 1)).
        replace (cur + step + j * step) with (cur + (j + 1) * step) by lia.
        apply H; lia.
Qed.

(** A slice with a positive step holds the items at [lo], [lo + step], ...
    below [hi], where [lo] and [hi] are the bounds clamped into the list. *)
Lemma get_slice_positive l (a b c : option Z) :
  let step := default 1 c in
  let n := PyList.len l in
  let clamp := fun x => Z.max 0 (Z.min (if x <? 0 then x + n else x) n) in
  let lo := match a with Some x => clamp x | None => 0 end in
  let hi := match b with Some x => clamp x | None => n end in
  0 < step ->
  exists r,
    PyList.get_slice l a b c = inr r
    /\ forall k : nat,
        nth_error r k
        = if lo + Z.of_nat k * step <? hi
          then nth_error l (Z.to_nat (lo + Z.of_nat k * step))
          else None.
Proof.
  intros step n clamp lo hi Hstep.
  pose proof (len_nonneg l) as Hn; fold n in Hn.
  assert (Hadj : forall x, PyList.adjust n step x = clamp x).
  { intros x; unfold PyList.adjust, clamp.
    destruct (Z.ltb_spec step 0); [lia |].
    destruct (Z.ltb_spec x 0); [destruct (Z.ltb_spec (x + n) 0) |
                                destruct (Z.leb_spec n x)]; lia. }
  unfold PyList.get_slice; fold (default 1 c); fold step.
  destruct (Z.eqb_spec step 0) as [E | _]; [lia |].
  destruct (PyList.slice_indices (PyList.len l) a b step) as [[cur st] cnt] eqn:E.
  destruct (slice_indices_in_range _ a b step cur st cnt (len_nonneg l)
              ltac:(lia) E) as [-> [Hcnt Hrange]].
  eexists; split; [reflexivity |].
  intros k; rewrite take_every_nth by (intros j Hj; apply Hrange; lia).
  unfold PyList.slice_indices in E; fold n in E.
  destruct (Z.ltb_spec step 0) as [| _]; [lia |].
  assert (Elo : cur = lo).
  { injection E as <- _; subst lo; destruct a; [apply Hadj | reflexivity]. }
  assert (Ecnt : cnt = if lo <? hi then (hi - lo - 1) / step + 1 else 0).
  { injection E as _ <-; subst lo hi.
    destruct a, b; rewrite ?Hadj; reflexivity. }
  clear E; subst cur.
  assert (Hiff : (k <? Z.to_nat cnt)%nat = (lo + Z.of_nat k * step <? hi)).
  { destruct (Z.ltb_spec lo hi) as [Hlt | Hge].
    - assert (Hq : 0 <= (hi - lo - 1) / step) by (apply Z.div_pos; lia).
      assert (Hm : step * ((hi - lo - 1) / step) <= hi - lo - 1)
        by (apply Z.mul_div_le; lia).
      destruct (Z.ltb_spec (lo + Z.of_nat k * step) hi) as [Hin | Hout].
      + apply Nat.ltb_lt.
        assert (Z.of_nat k <= (hi - lo - 1) / step)
          by (apply Z.div_le_lower_bound; lia).
        lia.
      + apply Nat.ltb_ge.
        assert (~ Z.of_nat k <= (hi - lo - 1) / step) by (intros Hk; nia).
        lia.
    - subst cnt.
      destruct (Z.ltb_spec (lo + Z.of_nat k * step) hi) as [Hin | Hout]; [nia |].
      apply Nat.ltb_ge; simpl; lia. }
  rewrite Hiff; reflexivity.
Qed.

(** A slice with a negative step holds the items at [lo], [lo + step], ...
    above [hi], where [lo] and [hi] are the bounds clamped into the list,
    one place lower than for a positive step. *)
Lemma get_slice_negative l (a b : option Z) (step : Z) :
  let n := PyList.len l in
  let clamp := fun x => Z.max (-1) (Z.min (if x <? 0 then x + n else x) (n - 1)) in
  let lo := match a with Some x => clamp x | None => n - 1 end in
  let hi := match b with Some x => clamp x | None => -1 end in
  step < 0 ->
  exists r,
    PyList.get_slice l a b (Some step) = inr r
    /\ forall k : nat,
        nth_error r k
        = if hi <? lo + Z.of_nat k * step
          then nth_error l (Z.to_nat (lo + Z.of_nat k * step))
          else None.
Proof.
  intros n clamp lo hi Hstep.
  pose proof (len_nonneg l) as Hn; fold n in Hn.
  assert (Hadj : forall x, PyList.adjust n step x = clamp x).
  { intros x; unfold PyList.adjust, clamp.
    destruct (Z.ltb_spec step 0); [| lia].
    destruct (Z.ltb_spec x 0); [destruct (Z.ltb_spec (x + n) 0) |
                                destruct (Z.leb_spec n x)]; lia. }
  unfold PyList.get_slice.
  destruct (Z.eqb_spec step 0) as [E | _]; [lia |].
  destruct (PyList.slice_indices (PyList.len l) a b step) as [[cur st] cnt] eqn:E.
  destruct (slice_indices_in_range _ a b step cur st cnt (len_nonneg l)
              ltac:(lia) E) as [-> [Hcnt Hrange]].
  eexists; split; [reflexivity |].
  intros k; rewrite take_every_nth by (intros j Hj; apply Hrange; lia).
  unfold PyList.slice_indices in E; fold n in E.
  destruct (Z.ltb_spec step 0) as [_ |]; [| lia].
  assert (Elo : cur = lo).
  { injection E as <- _; subst lo; destruct a; [apply Hadj | reflexivity]. }
  assert (Ecnt : cnt = if hi <? lo then (lo - hi - 1) / (- step) + 1 else 0).
  { injection E as _ <-; subst lo hi.
    destruct a, b; rewrite ?Hadj; reflexivity. }
  clear E; subst cur.
  assert (Hiff : (k <? Z.to_nat cnt)%nat = (hi <? lo + Z.of_nat k * step)).
  { destruct (Z.ltb_spec hi lo) as [Hlt | Hge].
    - assert (Hq : 0 <= (lo - hi - 1) / - step) by (apply Z.div_pos; lia).
      assert (Hm : - step * ((lo - hi - 1) / - step) <= lo - hi - 1)
        by (apply Z.mul_div_le; lia).
      destruct (Z.ltb_spec hi (lo + Z.of_nat k * step)) as [Hin | Hout].
      + apply Nat.ltb_lt.
        assert (Z.of_nat k <= (lo - hi - 1) / - step)
          by (apply Z.div_le_lower_bound; lia).
        lia.
      + apply Nat.ltb_ge.
        assert (~ Z.of_nat k <= (lo - hi - 1) / - step) by (intros Hk; nia).
        lia.
    - subst cnt.
      destruct (Z.ltb_spec hi (lo + Z.of_nat k * step)) as [Hin | Hout]; [nia |].
      apply Nat.ltb_ge; simpl; lia. }
  rewrite Hiff; reflexivity.
Qed.

End SlicePositions.

(** ** Substitution into a template *)

Lemma str_app_assoc (a b c : string) : ((a ++ b) ++ c = a ++ (b ++ c))%string.
Proof. induction a as [| x a IH]; simpl; [reflexivity | rewrite IH; reflexivity]. Qed.

Lemma str_app_nil_r (a : string) : (a ++ EmptyString = a)%string.
Proof. induction a as [| x a IH]; simpl; [reflexivity | rewrite IH; reflexivity]. Qed.

Lemma emit_emit_str (c : ascii) (v : string) (r : option (result string)) :
  Py.emit c (Py.emit_str v r) = Py.emit_str (String c v) r.
Proof. destruct r as [[] |]; reflexivity. Qed.

Lemma emit_str_nil (r : option (result string)) : Py.emit_str EmptyString r = r.
Proof. destruct r as [[] |]; reflexivity. Qed.

Section FormatFacts.
Variables (args : list string) (kwargs : list (string * string)).

(** Text without braces is copied. *)
Lemma format_scan_text (pre : string) :
  Py.contains_char Py.lbrace pre = false ->
  Py.contains_char Py.rbrace pre = false ->
  forall rest num,
    Py.format_scan (pre ++ rest) Py.Text num args kwargs
    = Py.emit_str pre (Py.format_scan rest Py.Text num args kwargs).
Proof.
  induction pre as [| c pre IH]; intros Hl Hr rest num.
  - simpl; rewrite emit_str_nil; reflexivity.
  - simpl in Hl, Hr.
    apply Bool.orb_false_iff in Hl as [Hl Hl'].
    apply Bool.orb_false_iff in Hr as [Hr Hr'].
    simpl; rewrite Hl, Hr, (IH Hl' Hr'), emit_emit_str; reflexivity.
Qed.

Lemma format_scan_no_braces (s : string) (num : Py.numbering) :
  Py.contains_char Py.lbrace s = false ->
  Py.contains_char Py.rbrace s = false ->
  Py.format_scan s Py.Text num args kwargs = Some (inr s).
Proof.
  intros Hl Hr.
  rewrite <- (str_app_nil_r s) at 1.
  rewrite (format_scan_text s Hl Hr); simpl.
  rewrite str_app_nil_r; reflexivity.
Qed.

(** Doubled braces are read back as single ones. *)
Lemma format_scan_escaped (text : string) : forall rest num,
  Py.format_scan (Template.escape text ++ rest) Py.Text num args kwargs
  = Py.emit_str text (Py.format_scan rest Py.Text num args kwargs).
Proof.
  induction text as [| c text IH]; intros rest num.
  - simpl; rewrite emit_str_nil; reflexivity.
  - cbn [Template.escape].
    change "{"%char with Py.lbrace; change "}"%char with Py.rbrace.
    destruct (Ascii.eqb_spec c Py.lbrace) as [-> | Hl].
    + cbn; rewrite IH, emit_emit_str; reflexivity.
    + destruct (Ascii.eqb_spec c Py.rbrace) as [-> | Hr].
      * cbn; rewrite IH, emit_emit_str; reflexivity.
      * apply Ascii.eqb_neq in Hl, Hr.
        cbn; rewrite Hl, Hr, IH, emit_emit_str; reflexivity.
Qed.

(** The name of a plain field is read up to its closing brace. *)
Lemma format_scan_field (name : string) :
  (forall c, In c (list_ascii_of_string name) ->
             Py.plain_char c = true /\ c <> Py.rbrace) ->
  forall acc rest num,
    Py.format_scan (name ++ String Py.rbrace rest) (Py.InField acc) num args kwargs
    = match Py.field_value (acc ++ name) num args kwargs with
      | Some (inr (v, num')) =>
          Py.emit_str v (Py.format_scan rest Py.Text num' args kwargs)
      | Some (inl e) => Some (inl e)
      | None => None
      end.
Proof.
  induction name as [| c name IH]; intros Hn acc rest num.
  - simpl; rewrite str_app_nil_r; reflexivity.
  - destruct (Hn c (or_introl eq_refl)) as [Hp Hc].
    change (String c name ++ String Py.rbrace rest)%string
      with (String c (name ++ String Py.rbrace rest)).
    cbn [Py.format_scan].
    destruct (Ascii.eqb_spec c Py.rbrace) as [E | _]; [contradiction |].
    rewrite Hp, IH.
    + rewrite str_app_assoc; reflexivity.
    + intros c' Hc'; apply Hn; right; exact Hc'.
Qed.

(** A whole plain field, from its opening brace. *)
Lemma format_scan_named (name rest : string) (num : Py.numbering) :
  name <> EmptyString ->
  (forall c, In c (list_ascii_of_string name) ->
             Py.plain_char c = true /\ c <> Py.rbrace) ->
  Py.format_scan ("{" ++ name ++ "}" ++ rest) Py.Text num args kwargs
  = match Py.field_value name num args kwargs with
    | Some (inr (v, num')) =>
        Py.emit_str v (Py.format_scan rest Py.Text num' args kwargs)
    | Some (inl e) => Some (inl e)
    | None => None
    end.
Proof.
  intros Hne Hplain.
  change ("{" ++ name ++ "}" ++ rest)%string
    with (String Py.lbrace (name ++ String Py.rbrace rest)).
  destruct name as [| c name]; [contradiction |].
  destruct (Hplain c (or_introl eq_refl)) as [Hp Hc].
  assert (Hcl : Ascii.eqb c Py.lbrace = false).
  { unfold Py.plain_char in Hp.
    apply Bool.andb_true_iff in Hp as [_ Hp].
    apply Bool.negb_true_iff, Bool.orb_false_iff in Hp as [_ Hp]; exact Hp. }
  change (String c name ++ String Py.rbrace rest)%string
    with (String c (name ++ String Py.rbrace rest)).
  cbn [Py.format_scan].
  change (Ascii.eqb Py.lbrace Py.lbrace) with true; cbv iota.
  destruct (Ascii.eqb_spec c Py.rbrace) as [E | _]; [contradiction |].
  rewrite Hcl, Hp, format_scan_field
    by (intros c' Hc'; apply Hplain; right; exact Hc').
  reflexivity.
Qed.

End FormatFacts.

Lemma kwargs_get_keyword (kwargs : list (string * string)) (name : string) :
  Py.kwargs_get kwargs name = Template.keyword kwargs name.
Proof.
  unfold Template.keyword.
  induction kwargs as [| [k v] kwargs IH]; simpl; [reflexivity |].
  destruct (String.eqb k name); [reflexivity | exact IH].
Qed.

Lemma name_char_plain (c : ascii) :
  Template.name_char c = true -> Py.plain_char c = true /\ c <> Py.rbrace.
Proof.
  unfold Template.name_char, Py.plain_char; cbn [existsb].
  intros H; apply Bool.andb_true_iff in H as [Ha H].
  apply Bool.negb_true_iff in H.
  repeat (apply Bool.orb_false_iff in H as [? H]).
  split.
  - rewrite Ha; cbn [andb]; apply Bool.negb_true_iff.
    repeat (apply Bool.orb_false_iff; split); assumption.
  - intros ->; discriminate.
Qed.

Lemma valid_name_spec (name : string) :
  Template.valid_name name = true ->
  name <> EmptyString
  /\ NilZero.uint_of_string name = None
  /\ (forall c, In c (list_ascii_of_string name) ->
                Py.plain_char c = true /\ c <> Py.rbrace).
Proof.
  unfold Template.valid_name; intros H.
  apply Bool.andb_true_iff in H as [H Hc].
  apply Bool.andb_true_iff in H as [Hne Hnum].
  repeat split.
  - intros ->; discriminate.
  - destruct (NilZero.uint_of_string name); [discriminate | reflexivity].
  - apply name_char_plain; rewrite forallb_forall in Hc; apply Hc; assumption.
  - apply name_char_plain; rewrite forallb_forall in Hc; apply Hc; assumption.
Qed.

Lemma digit_chars (u : Decimal.uint) :
  forall c, In c (list_ascii_of_string (NilEmpty.string_of_uint u)) ->
            Py.plain_char c = true /\ c <> Py.rbrace.
Proof.
  induction u; simpl; intros c H; try contradiction;
    (destruct H as [<- | H]; [split; [reflexivity | discriminate] | apply IHu; exact H]).
Qed.

Lemma to_uint_nonnil (n : N) : N.to_uint n <> Decimal.Nil.
Proof.
  destruct n; simpl; [discriminate | apply DecimalPos.Unsigned.to_uint_nonnil].
Qed.

Lemma digits_spec (n : N) :
  Template.digits n <> EmptyString
  /\ NilZero.uint_of_string (Template.digits n) = Some (N.to_uint n)
  /\ (forall c, In c (list_ascii_of_string (Template.digits n)) ->
                Py.plain_char c = true /\ c <> Py.rbrace).
Proof.
  pose proof (to_uint_nonnil n) as Hn.
  assert (E : Template.digits n = NilEmpty.string_of_uint (N.to_uint n)).

  { unfold Template.digits, NilZero.string_of_uint.
    destruct (N.to_uint n); [contradiction | reflexivity ..]. }
  repeat split.
  - rewrite E; destruct (N.to_uint n); [contradiction | discriminate ..].
  - apply NilZero.usu; exact Hn.
  - rewrite E in H; apply (digit_chars _ _ H).
  - rewrite E in H; apply (digit_chars _ _ H).
Qed.

Section TemplateFacts.
Variables (args : list string) (kwargs : list (string * string)).

Lemma format_scan_template (t : list Template.piece) :
  forall num next out,
    Template.numbering_fits num next t ->
    forallb Template.piece_ok t = true ->
    Template.substitute t next args kwargs = Some out ->
    Py.format_scan (Template.render t) Py.Text num args kwargs = Some (inr out).
Proof.
  induction t as [| p t IH]; intros num next out Hfit Hok Hsub.
  - simpl in Hsub; injection Hsub as <-; reflexivity.
  - cbn [forallb] in Hok; apply Bool.andb_true_iff in Hok as [Hp Hok].
    destruct p as [text | | n | name]; cbn [Template.render Template.render_piece].
    + (* literal text *)
      cbn [Template.substitute] in Hsub.
      destruct (Template.substitute t next args kwargs) as [out' |] eqn:E;
        [| discriminate].
      injection Hsub as <-.
      assert (Hfit' : Template.numbering_fits num next t).
      { destruct num;
          cbn [Template.numbering_fits forallb Template.is_auto Template.is_index negb andb]
            in *; exact Hfit. }
      rewrite format_scan_escaped, (IH num next out' Hfit' Hok E); reflexivity.
    + (* automatic placeholder *)
      cbn [Template.substitute] in Hsub.
      destruct (nth_error args next) as [v |] eqn:Hv; [| discriminate].
      destruct (Template.substitute t (S next) args kwargs) as [out' |] eqn:E;
        [| discriminate].
      injection Hsub as <-.
      assert (Hnum : Py.field_value EmptyString num args kwargs
                     = Some (inr (v, Py.Automatic (S next)))
                     /\ forallb (fun p => negb (Template.is_index p)) t = true).
      { destruct num as [| n |];
          cbn [Template.numbering_fits forallb Template.is_auto Template.is_index negb andb] in Hfit.
        - destruct Hfit as [-> [H | H]]; [discriminate |].
          split; [unfold Py.field_value; rewrite Hv; reflexivity | exact H].
        - destruct Hfit as [-> H].
          split; [unfold Py.field_value; rewrite Hv; reflexivity | exact H].
        - discriminate. }
      destruct Hnum as [Hfield Hidx].
      change ("{}" ++ Template.render t)%string
        with (String Py.lbrace (String Py.rbrace (Template.render t))).
      cbn [Py.format_scan].
      change (Ascii.eqb Py.lbrace Py.lbrace) with true.
      change (Ascii.eqb Py.rbrace Py.lbrace) with false.
      change (Ascii.eqb Py.rbrace Py.rbrace) with true.
      cbv iota; rewrite Hfield.
      rewrite (IH (Py.Automatic (S next)) (S next) out' (conj eq_refl Hidx) Hok E).
      reflexivity.
    + (* indexed placeholder *)
      cbn [Template.substitute] in Hsub.
      destruct (nth_error args (N.to_nat n)) as [v |] eqn:Hv; [| discriminate].
      destruct (Template.substitute t next args kwargs) as [out' |] eqn:E;
        [| discriminate].
      injection Hsub as <-.
      destruct (digits_spec n) as [Hne [Hval Hchars]].
      assert (Hnum : Py.field_value (Template.digits n) num args kwargs
                     = Some (inr (v, Py.Manual))
                     /\ forallb (fun p => negb (Template.is_auto p)) t = true).
      { assert (Hlen : (n <? N.of_nat (List.length args))%N = true).
        { apply N.ltb_lt.
          assert (N.to_nat n < List.length args)%nat
            by (apply nth_error_Some; rewrite Hv; discriminate).
          lia. }
        assert (Hmax : (Py.max_index <? n)%N = false).
        { apply N.ltb_ge; apply N.leb_le in Hp; exact Hp. }
        assert (Hman : forall num', num' = Py.NoneYet \/ num' = Py.Manual ->
                  Py.field_value (Template.digits n) num' args kwargs
                  = Some (inr (v, Py.Manual))).
        { intros num' Hn'; unfold Py.field_value.
          destruct (Template.digits n) as [| d ds] eqn:Ed; [contradiction |].
          rewrite Hval, DecimalN.Unsigned.of_to, Hmax, Hlen, Hv.
          destruct Hn' as [-> | ->]; reflexivity. }
        destruct num as [| n' |];
          cbn [Template.numbering_fits forallb Template.is_auto Template.is_index negb andb] in Hfit.
        - destruct Hfit as [_ [H | H]]; [| discriminate].
          split; [apply Hman; left; reflexivity | exact H].
        - destruct Hfit as [_ H]; discriminate.
        - split; [apply Hman; right; reflexivity | exact Hfit]. }
      destruct Hnum as [Hfield Hauto].
      rewrite !str_app_assoc.
      rewrite (format_scan_named args kwargs _ _ num Hne Hchars), Hfield.
      rewrite (IH Py.Manual next out' Hauto Hok E); reflexivity.
    + (* named placeholder *)
      cbn [Template.substitute] in Hsub.
      destruct (Template.keyword kwargs name) as [v |] eqn:Hv; [| discriminate].
      destruct (Template.substitute t next args kwargs) as [out' |] eqn:E;
        [| discriminate].
      injection Hsub as <-.
      destruct (valid_name_spec name Hp) as [Hne [Hnum Hchars]].
      assert (Hfield : Py.field_value name num args kwargs = Some (inr (v, num))).
      { unfold Py.field_value.
        destruct name as [| c name]; [contradiction |].
        rewrite Hnum, kwargs_get_keyword, Hv; reflexivity. }
      rewrite !str_app_assoc.
      rewrite (format_scan_named args kwargs _ _ num Hne Hchars), Hfield.
      assert (Hfit' : Template.numbering_fits num next t).
      { destruct num;
          cbn [Template.numbering_fits forallb Template.is_auto Template.is_index negb andb]
            in *; exact Hfit. }
      rewrite (IH num next out' Hfit' Hok E); reflexivity.
Qed.

End TemplateFacts.

Lemma str_format_template (beyond : Py.formatter) (t : list Template.piece)
      (args : list string) (kwargs : list (string * string)) (out : string) :
  Template.well_formed t = true ->
  Template.substitute t 0 args kwargs = Some out ->
  Py.str_format beyond (Template.render t) args kwargs = inr out.
Proof.
  unfold Template.well_formed; intros Hwf Hsub.
  apply Bool.andb_true_iff in Hwf as [Hstyle Hok].
  apply Bool.orb_true_iff in Hstyle.
  unfold Py.str_format.
  rewrite (format_scan_template args kwargs t Py.NoneYet 0 out); auto.
  split; [reflexivity | exact Hstyle].
Qed.

(** ** Equations of the methods *)

Ltac unfold_py :=
  unfold wait_for_clickability, is_present_now, is_visible_now, is_clickable,
    is_visible, click, getitem, len, element, elements, raise_error, str_self,
    format, format_with, try_except, try_finally, bind, ret, raise, lift, ask,
    act, get_self, set_selector, find_element, find_elements, default in *;
  simpl in *.

Section Behaviour.
Context {World : Type} (driver : WebDriver World).
Implicit Types (st : State World) (e : WebElement) (url : string).

Lemma moved_to_same st : moved_to (world st) st = st.
Proof. destruct st; reflexivity. Qed.

Lemma elements_eq st : elements driver st = (located driver st, st).
Proof. reflexivity. Qed.

Lemma element_found st e rest :
  located driver st = inr (e :: rest) -> element driver st = (inr e, st).
Proof. unfold located; intros H; unfold_py; rewrite H; reflexivity. Qed.

Lemma element_absent st url :
  located driver st = inr [] ->
  current_url driver (world st) = inr url ->
  element driver st = (raised (ElementNotFoundError (repr (self st)) url []), st).
Proof.
  unfold located; intros H Hu; unfold_py; rewrite H; simpl; rewrite Hu.
  reflexivity.
Qed.

Lemma getitem_ok st els index it :
  located driver st = inr els ->
  subscript els index = inr it ->
  getitem driver index st = (inr it, st).
Proof.
  unfold located; intros H Hs; unfold_py; rewrite H, Hs; reflexivity.
Qed.

Lemma getitem_index_error st els index url :
  located driver st = inr els ->
  subscript els index = inl IndexError ->
  current_url driver (world st) = inr url ->
  getitem driver index st =
    (raised (ElementNotFoundError (repr (self st)) url
            ["Element with index=" ++ PyList.repr_index index ++ " is not exist."]),
     st).
Proof.
  unfold located; intros H Hs Hu; unfold_py; rewrite H, Hs; simpl; rewrite Hu.
  reflexivity.
Qed.

Lemma is_clickable_eq timeout st :
  is_clickable driver timeout st =
    match clickable_wait driver timeout st with
    | (inr _, w') => (inr true, moved_to w' st)
    | (inl TimeoutException, w') => (inr false, moved_to w' st)
    | (inl x, w') => (inl x, moved_to w' st)
    end.
Proof.
  unfold clickable_wait; unfold_py.
  destruct (until driver _ _ (world st)) as [[x | e] w']; [destruct x |];
    reflexivity.
Qed.

Lemma is_visible_eq timeout st :
  is_visible driver timeout st =
    match visible_wait driver timeout st with
    | (inr _, w') => (inr true, moved_to w' st)
    | (inl TimeoutException, w') => (inr false, moved_to w' st)
    | (inl x, w') => (inl x, moved_to w' st)
    end.
Proof.
  unfold visible_wait; unfold_py.
  destruct (until driver _ _ (world st)) as [[x | e] w']; [destruct x |];
    reflexivity.
Qed.

Lemma wait_for_clickability_eq timeout error_msg st :
  wait_for_clickability driver timeout error_msg st =
    match is_clickable driver (Some (default BASIC_TIMEOUT timeout)) st with
    | (inr true, st') => element driver st'
    | (inr false, st') =>
        raise_error driver ElementNotClickableError
          [Py.or_empty error_msg;
           "Error raised after timeout="
             ++ Py.repr_int (default BASIC_TIMEOUT timeout) ++ "s."] st'
    | (inl x, st') => (inl x, st')
    end.
Proof.
  unfold wait_for_clickability, bind.
  destruct (is_clickable driver _ st) as [[x | []] st']; reflexivity.
Qed.

Lemma clickable_wait_some timeout st :
  clickable_wait driver (Some (default BASIC_TIMEOUT timeout)) st = clickable_wait driver timeout st.
Proof. reflexivity. Qed.



Lemma format_with_eq fmt {A} args kwargs (body : M World A) st :
  format_with fmt args kwargs body st =
    let original := selector (self st) in
    match fmt original args kwargs with
    | inl x => (inl x, with_selector original st)
    | inr s =>
        let '(r, st') := body (with_selector s st) in
        (r, with_selector original st')
    end.
Proof.
  unfold_py; unfold get_selector; simpl.
  destruct (fmt (selector (self st)) args kwargs) as [x | s]; simpl;
    [reflexivity |].
  destruct (body _) as [[x | y] st']; reflexivity.
Qed.

End Behaviour.

(** ** The format scope *)

(** C1. For every element, every list of positional and keyword arguments
    and every body of the [with] block, the selector after the scope is the
    selector held on entry: whether the body returns or raises, whatever it
    did to the object meanwhile, and also when the substitution itself
    fails.  This holds for any substitution function, and so for [format],
    whose substitution is [str.format]. *)
Theorem format_restores_selector :
  forall (World A : Type) (beyond : Py.formatter) (args : list string)
         (kwargs : list (string * string)) (body : M World A) (st : State World),
    (forall fmt,
        selector (self (snd (format_with fmt args kwargs body st)))
        = selector (self st))
    /\ selector (self (snd (format beyond args kwargs body st)))
       = selector (self st).
Proof.
  intros World A beyond args kwargs body st.
  assert (H : forall fmt,
             selector (self (snd (format_with fmt args kwargs body st)))
             = selector (self st)).
  { intros fmt; rewrite format_with_eq; simpl.
    destruct (fmt (selector (self st)) args kwargs) as [x | s]; [reflexivity |].
    destruct (body (with_selector s st)) as [r st']; reflexivity. }
  split; [exact H | apply H].
Qed.

(** C8. Inside the scope the active selector is the template with its
    placeholders substituted.  Read the selector as a template of literal
    text, automatic ([{}]), indexed ([{N}]) and named ([{name}])
    placeholders; when every placeholder has its argument, the body runs on
    the object whose selector is the template with each placeholder replaced
    by its positional or keyword argument, and the scope ends with the
    body's outcome and the original selector back in place.  For the
    selector [.//div[{}]] formatted with [3], the body reads [.//div[3]], and
    after the scope the selector is [.//div[{}]] again. *)
Theorem format_active_selector :
  (forall (World A : Type) (beyond : Py.formatter) (args : list string)
          (kwargs : list (string * string)) (body : M World A) (st : State World)
          (t : list Template.piece) (out : string),
      selector (self st) = Template.render t ->
      Template.well_formed t = true ->
      Template.substitute t 0 args kwargs = Some out ->
      format beyond args kwargs body st
      = (fst (body (with_selector out st)),
         with_selector (selector (self st)) (snd (body (with_selector out st)))))
  /\ (forall (World : Type) (beyond : Py.formatter) (loc : string) (w : World),
         let el := {| locator := loc; selector := ".//div[{}]" |} in
         format beyond ["3"] [] get_selector {| self := el; world := w |}
         = (inr ".//div[3]", {| self := el; world := w |})).
Proof.
  split.
  - intros World A beyond args kwargs body st t out Hs Hwf Hsub.
    unfold format; rewrite format_with_eq; cbv zeta.
    rewrite Hs at 1; rewrite (str_format_template beyond t args kwargs out Hwf Hsub).
    destruct (body (with_selector out st)); reflexivity.
  - intros World beyond loc w; reflexivity.
Qed.

Lemma format_active_selector_witness :
  Template.render
    [ Template.Lit "//tr[@id='"; Template.Named "row"; Template.Lit "']/td[";
      Template.Auto; Template.Lit "]" ]
  = "//tr[@id='{row}']/td[{}]"
  /\ Template.substitute
       [ Template.Lit "//tr[@id='"; Template.Named "row"; Template.Lit "']/td[";
         Template.Auto; Template.Lit "]" ]
       0 ["2"] [("col", "c"); ("row", "r7")]
     = Some "//tr[@id='r7']/td[2]"
  /\ format Fake.beyond ["2"] [("col", "c"); ("row", "r7")]
       (s <- get_selector ;; set_selector "other" ;; raise (KeyError s))
       {| self := init "//tr[@id='{row}']/td[{}]" "xpath"; world := Fake.page |}
     = (@inl exn unit (KeyError "//tr[@id='r7']/td[2]"),
        {| self := init "//tr[@id='{row}']/td[{}]" "xpath"; world := Fake.page |}).
Proof.
  split; [reflexivity | split; [reflexivity |]].
  exact (proj1 format_active_selector Fake.Browser unit Fake.beyond ["2"]
           [("col", "c"); ("row", "r7")]
           (s <- get_selector ;; set_selector "other" ;; raise (KeyError s))
           {| self := init "//tr[@id='{row}']/td[{}]" "xpath"; world := Fake.page |}
           [ Template.Lit "//tr[@id='"; Template.Named "row"; Template.Lit "']/td[";
             Template.Auto; Template.Lit "]" ]
           "//tr[@id='r7']/td[2]" eq_refl eq_refl eq_refl).
Defined.

(** ** Waiting predicates *)

(** C2. With [t] the timeout passed (read [clickable_wait driver (Some t) st]
    as the driver's wait for clickability of the element's locator pair for
    [t] seconds): [is_clickable] returns [False] exactly when that wait
    raises [TimeoutException], and returns [True] exactly when the wait
    returns; the same holds of [is_visible] and the wait for visibility.  A
    timeout is therefore never raised.  Called without a timeout, both wait
    5 seconds. *)
Theorem is_clickable_is_visible_timeout :
  forall (World : Type) (driver : WebDriver World) (t : Z) (st : State World),
    (fst (is_clickable driver (Some t) st) = inr false
     <-> fst (clickable_wait driver (Some t) st) = inl TimeoutException)
    /\ (fst (is_clickable driver (Some t) st) = inr true
        <-> exists e, fst (clickable_wait driver (Some t) st) = inr e)
    /\ (fst (is_visible driver (Some t) st) = inr false
        <-> fst (visible_wait driver (Some t) st) = inl TimeoutException)
    /\ (fst (is_visible driver (Some t) st) = inr true
        <-> exists e, fst (visible_wait driver (Some t) st) = inr e)
    /\ is_clickable driver None st = is_clickable driver (Some 5) st
    /\ is_visible driver None st = is_visible driver (Some 5) st.
Proof.
  intros World driver t st.
  rewrite is_clickable_eq, is_visible_eq.
  destruct (clickable_wait driver (Some t) st) as [[x | e] w'];
    destruct (visible_wait driver (Some t) st) as [[y | e'] w''];
    try destruct x; try destruct y; simpl;
    repeat split; intros; try discriminate; try congruence; eauto;
    try (match goal with H : exists _, _ |- _ => destruct H; discriminate end).
Qed.

Lemma is_clickable_is_visible_timeout_witness :
  fst (is_clickable Fake.driver (Some 0) (Fake.on Fake.save)) = inr false
  /\ fst (is_visible Fake.driver (Some 1) (Fake.on Fake.save)) = inr true.
Proof.
  pose proof (is_clickable_is_visible_timeout Fake.Browser Fake.driver 0
                (Fake.on Fake.save)) as [Hc _].
  pose proof (is_clickable_is_visible_timeout Fake.Browser Fake.driver 1
                (Fake.on Fake.save)) as [_ [_ [_ [Hv _]]]].
  split.
  - apply Hc; reflexivity.
  - apply Hv; exists {| element_id := "save" |}; reflexivity.
Defined.

(** ** Resolving *)

(** C5. When the selector matches no node, [elements] returns the empty
    list without error (and the length is 0), while [element] raises
    [ElementNotFoundError] carrying the descriptor [str(self)] and the
    current page URL. *)
Theorem zero_matches_elements_and_element :
  forall (World : Type) (driver : WebDriver World) (st : State World) (url : string),
    located driver st = inr [] ->
    current_url driver (world st) = inr url ->
    elements driver st = (inr [], st)
    /\ len driver st = (inr 0, st)
    /\ element driver st
       = (raised (ElementNotFoundError (repr (self st)) url []), st).
Proof.
  intros World driver st url H Hu; repeat split.
  - rewrite elements_eq, H; reflexivity.
  - unfold len, bind; rewrite elements_eq, H; reflexivity.
  - apply element_absent; assumption.
Qed.

Lemma zero_matches_elements_and_element_witness :
  located Fake.driver (Fake.on Fake.missing) = inr []
  /\ current_url Fake.driver (world (Fake.on Fake.missing)) = inr "http://localhost/rows"
  /\ elements Fake.driver (Fake.on Fake.missing) = (inr [], Fake.on Fake.missing)
  /\ len Fake.driver (Fake.on Fake.missing) = (inr 0, Fake.on Fake.missing)
  /\ element Fake.driver (Fake.on Fake.missing)
     = (raised (ElementNotFoundError "self.selector='nothing'" "http://localhost/rows" []),
        Fake.on Fake.missing).
Proof.
  split; [reflexivity | split; [reflexivity |]].
  exact (zero_matches_elements_and_element Fake.Browser Fake.driver
           (Fake.on Fake.missing) "http://localhost/rows" eq_refl eq_refl).
Defined.

(** C3. When the selector matches no node, [is_present_now] and
    [is_visible_now] return [False] and do not raise: the property [element]
    turns the driver's not-found signal into [ElementNotFoundError], which
    reads the page URL, and the handler of the two methods swallows that
    error. *)
Theorem now_checks_false_when_absent :
  forall (World : Type) (driver : WebDriver World) (st : State World) (url : string),
    located driver st = inr [] ->
    current_url driver (world st) = inr url ->
    is_present_now driver st = (inr false, st)
    /\ is_visible_now driver st = (inr false, st).
Proof.
  intros World driver st url H Hu.
  unfold is_present_now, is_visible_now, try_except, bind.
  rewrite (element_absent driver st url H Hu); split; reflexivity.
Qed.

Lemma now_checks_false_when_absent_witness :
  located Fake.driver (Fake.on Fake.missing) = inr []
  /\ current_url Fake.driver (world (Fake.on Fake.missing))
     = inr "http://localhost/rows"
  /\ is_present_now Fake.driver (Fake.on Fake.missing)
     = (inr false, Fake.on Fake.missing)
  /\ is_visible_now Fake.driver (Fake.on Fake.missing)
     = (inr false, Fake.on Fake.missing).
Proof.
  split; [reflexivity | split; [reflexivity |]].
  exact (now_checks_false_when_absent Fake.Browser Fake.driver
           (Fake.on Fake.missing) "http://localhost/rows" eq_refl eq_refl).
Defined.

(** The immediate checks do answer when the node is there. *)
Lemma now_checks_when_present
      {World : Type} (driver : WebDriver World) (st : State World)
      (e : WebElement) (rest : list WebElement) :
  located driver st = inr (e :: rest) ->
  is_present_now driver st = (inr true, st).
Proof.
  intros H; unfold is_present_now, try_except, bind.
  rewrite (element_found driver st e rest H); reflexivity.
Qed.

(** The handler of [is_visible_now] does catch the driver's signal when it
    reaches it unchanged, here from the node's own display check. *)
Lemma is_visible_now_catches_driver_signal
      {World : Type} (driver : WebDriver World) (st : State World)
      (e : WebElement) (rest : list WebElement) :
  located driver st = inr (e :: rest) ->
  node_is_displayed driver e (world st) = inl NoSuchElementException ->
  is_visible_now driver st = (inr false, st).
Proof.
  intros H Hd; unfold is_visible_now, try_except, bind, ask.
  rewrite (element_found driver st e rest H), Hd; reflexivity.
Qed.

(** ** Subscription *)

(** C4, the slice part as stated fails: on a page whose selector matches two
    nodes, the slice [5:10] lies wholly past the end, and the access returns
    the empty list; no error is raised. *)
Lemma getitem_slice_past_end_is_empty :
  located Fake.driver (Fake.on Fake.rows)
  = inr [ {| element_id := "row-1" |}; {| element_id := "row-2" |} ]
  /\ getitem Fake.driver (PyList.Slice (Some 5) (Some 10) None) (Fake.on Fake.rows)
     = (inr (Many []), Fake.on Fake.rows).
Proof. split; reflexivity. Qed.

(** C4, amended.  Subscription resolves the full list ([elements]) and
    subscripts it.  For every [int] index at or past the length, the access
    raises [ElementNotFoundError] whose context names that index.  A slice
    is never out of range: its bounds are clamped into the list, a negative
    bound counting from the end, and the access returns the elements at the
    positions [lo], [lo + step], ... short of [hi]; so a forward slice that
    starts at or past the length returns the empty list. *)
Theorem getitem_past_end :
  forall (World : Type) (driver : WebDriver World) (st : State World)
         (els : list WebElement) (url : string),
    located driver st = inr els ->
    current_url driver (world st) = inr url ->
    len driver st = (inr (PyList.len els), st)
    /\ (forall index it,
           subscript els index = inr it -> getitem driver index st = (inr it, st))
    /\ (forall i,
           PyList.len els <= i ->
           getitem driver (PyList.Int i) st
           = (raised (ElementNotFoundError (repr (self st)) url
                     ["Element with index=" ++ Py.repr_int i ++ " is not exist."]),
              st))
    /\ (forall a b c,
           let step := default 1 c in
           let n := PyList.len els in
           let clamp := fun x => Z.max 0 (Z.min (if x <? 0 then x + n else x) n) in
           let lo := match a with Some x => clamp x | None => 0 end in
           let hi := match b with Some x => clamp x | None => n end in
           0 < step ->
           exists l,
             getitem driver (PyList.Slice a b c) st = (inr (Many l), st)
             /\ forall k : nat,
                 nth_error l k
                 = if lo + Z.of_nat k * step <? hi
                   then nth_error els (Z.to_nat (lo + Z.of_nat k * step))
                   else None)
    /\ (forall a b step,
           let n := PyList.len els in
           let clamp :=
             fun x => Z.max (-1) (Z.min (if x <? 0 then x + n else x) (n - 1)) in
           let lo := match a with Some x => clamp x | None => n - 1 end in
           let hi := match b with Some x => clamp x | None => -1 end in
           step < 0 ->
           exists l,
             getitem driver (PyList.Slice a b (Some step)) st = (inr (Many l), st)
             /\ forall k : nat,
                 nth_error l k
                 = if hi <? lo + Z.of_nat k * step
                   then nth_error els (Z.to_nat (lo + Z.of_nat k * step))
                   else None)
    /\ (forall a b,
           PyList.len els <= a ->
           getitem driver (PyList.Slice (Some a) b None) st = (inr (Many []), st)).
Proof.
  intros World driver st els url H Hu; repeat split.
  - unfold len, bind; rewrite elements_eq, H; reflexivity.
  - intros index it Hs; eapply getitem_ok; eassumption.
  - intros i Hi.
    apply (getitem_index_error driver st els (PyList.Int i) url H); [| exact Hu].
    unfold subscript; rewrite get_int_past_end; [reflexivity | exact Hi].
  - intros a b c step n clamp lo hi Hstep.
    destruct (get_slice_positive els a b c Hstep) as [l [Hl Hnth]].
    exists l; split; [| exact Hnth].
    apply (getitem_ok driver st els); [exact H |].
    unfold subscript; rewrite Hl; reflexivity.
  - intros a b step n clamp lo hi Hstep.
    destruct (get_slice_negative els a b step Hstep) as [l [Hl Hnth]].
    exists l; split; [| exact Hnth].
    apply (getitem_ok driver st els); [exact H |].
    unfold subscript; rewrite Hl; reflexivity.
  - intros a b Ha.
    apply (getitem_ok driver st els); [exact H |].
    unfold subscript; rewrite get_slice_past_end; [reflexivity | exact Ha].
Qed.

Lemma getitem_past_end_witness :
  located Fake.driver (Fake.on Fake.rows)
  = inr [ {| element_id := "row-1" |}; {| element_id := "row-2" |} ]
  /\ getitem Fake.driver (PyList.Int 2) (Fake.on Fake.rows)
     = (raised (ElementNotFoundError "self.selector='.row'" "http://localhost/rows"
               ["Element with index=2 is not exist."]),
        Fake.on Fake.rows).
Proof.
  split; [reflexivity |].
  refine (proj1 (proj2 (proj2
            (getitem_past_end Fake.Browser Fake.driver (Fake.on Fake.rows)
               [ {| element_id := "row-1" |}; {| element_id := "row-2" |} ]
               "http://localhost/rows" eq_refl eq_refl))) 2 _).
  vm_compute; discriminate.
Defined.

(** C9. For a negative [int] index [i] with [-count <= i < 0] the access
    succeeds and returns the element at position [count + i] of the resolved
    list; for [i < -count] it raises [ElementNotFoundError] whose context
    names that index. *)
Theorem getitem_negative_index :
  forall (World : Type) (driver : WebDriver World) (st : State World)
         (els : list WebElement),
    located driver st = inr els ->
    (forall i,
        - PyList.len els <= i < 0 ->
        exists e, nth_error els (Z.to_nat (PyList.len els + i)) = Some e
                  /\ getitem driver (PyList.Int i) st = (inr (One e), st))
    /\ (forall i url,
           i < - PyList.len els ->
           current_url driver (world st) = inr url ->
           getitem driver (PyList.Int i) st
           = (raised (ElementNotFoundError (repr (self st)) url
                     ["Element with index=" ++ Py.repr_int i ++ " is not exist."]),
              st)).
Proof.
  intros World driver st els H; split.
  - intros i Hi.
    destruct (get_int_negative els i Hi) as [e [Hat Hget]].
    exists e; split; [apply item_at_nth_error; exact Hat |].
    apply (getitem_ok driver st els); [exact H |].
    unfold subscript; rewrite Hget; reflexivity.
  - intros i url Hi Hu.
    apply (getitem_index_error driver st els (PyList.Int i) url H); [| exact Hu].
    unfold subscript; rewrite get_int_before_start; [reflexivity | exact Hi].
Qed.

Lemma getitem_negative_index_witness :
  getitem Fake.driver (PyList.Int (-1)) (Fake.on Fake.rows)
  = (inr (One {| element_id := "row-2" |}), Fake.on Fake.rows)
  /\ getitem Fake.driver (PyList.Int (-3)) (Fake.on Fake.rows)
     = (raised (ElementNotFoundError "self.selector='.row'" "http://localhost/rows"
               ["Element with index=-3 is not exist."]),
        Fake.on Fake.rows).
Proof.
  pose proof (getitem_negative_index Fake.Browser Fake.driver (Fake.on Fake.rows)
                [ {| element_id := "row-1" |}; {| element_id := "row-2" |} ]
                eq_refl) as [Hin Hout].
  split.
  - destruct (Hin (-1)) as [e [Hnth Hget]]; [vm_compute; split; congruence |].
    vm_compute in Hnth; injection Hnth as <-; exact Hget.
  - apply (Hout (-3) "http://localhost/rows"); reflexivity.
Defined.

(** ** Clicking and waiting for clickability *)

(** C7. [click] resolves one element and clicks it: when the driver's click
    returns, so does [click]; when the driver signals an intercepted click,
    [click] raises [ElementNotClickableError] carrying the descriptor
    [str(self)] and the current page URL. *)
Theorem click_intercepted :
  forall (World : Type) (driver : WebDriver World) (st : State World)
         (e : WebElement) (rest : list WebElement),
    located driver st = inr (e :: rest) ->
    (forall w',
        node_click driver e (world st) = (inr tt, w') ->
        click driver st = (inr tt, moved_to w' st))
    /\ (forall w' url,
           node_click driver e (world st) = (inl ElementClickInterceptedException, w') ->
           current_url driver w' = inr url ->
           click driver st
           = (raised (ElementNotClickableError (repr (self st)) url []), moved_to w' st)).
Proof.
  intros World driver st e rest H.
  assert (He := element_found driver st e rest H).
  split.
  - intros w' Hc; unfold click, try_except, bind, act.
    rewrite He, Hc; reflexivity.
  - intros w' url Hc Hu; unfold click, try_except, bind, act.
    rewrite He, Hc; simpl.
    unfold raise_error, bind, str_self, get_self, ask, ret, raise; simpl.
    rewrite Hu; reflexivity.
Qed.

Lemma click_intercepted_witness :
  located Fake.driver (Fake.on Fake.save) = inr [ {| element_id := "save" |} ]
  /\ node_click Fake.driver {| element_id := "save" |} (world (Fake.on Fake.save))
     = (inl ElementClickInterceptedException, Fake.page)
  /\ click Fake.driver (Fake.on Fake.save)
     = (raised (ElementNotClickableError "self.selector='save'" "http://localhost/rows" []),
        Fake.on Fake.save).
Proof.
  split; [reflexivity | split; [reflexivity |]].
  exact (proj2 (click_intercepted Fake.Browser Fake.driver (Fake.on Fake.save)
                  {| element_id := "save" |} [] eq_refl)
           Fake.page "http://localhost/rows" eq_refl eq_refl).
Defined.





(** * Further properties of the methods *)

(** ** Subscription, length and iteration *)

Section MoreBehaviour.
Context {World : Type} (driver : WebDriver World).
Implicit Types (st : State World) (e : WebElement) (url : string).

(** Raising one of the project's errors never returns. *)
Lemma raise_error_raises {A} cls context st :
  exists x st', @raise_error World driver A cls context st = (inl x, st').
Proof.
  unfold raise_error, bind, str_self, get_self, ask, ret, raise; simpl.
  destruct (current_url driver (world st)) as [x | url]; eauto.
Qed.

Lemma getitem_subscript st els index :
  located driver st = inr els ->
  getitem driver index st
  = match subscript els index with
    | inr it => (inr it, st)
    | inl IndexError =>
        raise_error driver ElementNotFoundError
          ["Element with index=" ++ PyList.repr_index index ++ " is not exist."] st
    | inl x => (inl x, st)
    end.
Proof.
  unfold located; intros H; unfold_py; rewrite H.
  destruct (subscript els index) as [[] | it]; reflexivity.
Qed.

Lemma getitem_slice_ok st els a b c r :
  located driver st = inr els ->
  PyList.get_slice els a b c = inr r ->
  getitem driver (PyList.Slice a b c) st = (inr (Many r), st).
Proof.
  intros H Hr; apply (getitem_ok driver st els); [exact H |].
  unfold subscript; rewrite Hr; reflexivity.
Qed.

End MoreBehaviour.

(** X1. Iteration, length and subscription agree on one resolved list:
    [__iter__] yields the resolved elements in order, [__len__] is their
    number, [self[i]] for [0 <= i < len] is the [i]-th element iterated, and
    an [int] subscript succeeds exactly for [-len <= i < len]. *)
Theorem indexing_agrees_with_iteration :
  forall (World : Type) (driver : WebDriver World) (st : State World)
         (els : list WebElement),
    located driver st = inr els ->
    iter driver st = (inr els, st)
    /\ len driver st = (inr (PyList.len els), st)
    /\ (forall i,
           0 <= i < PyList.len els ->
           exists e, nth_error els (Z.to_nat i) = Some e
                     /\ getitem driver (PyList.Int i) st = (inr (One e), st))
    /\ (forall i,
           (exists it, fst (getitem driver (PyList.Int i) st) = inr it)
           <-> - PyList.len els <= i < PyList.len els).
Proof.
  intros World driver st els H.
  split; [unfold iter; rewrite elements_eq, H; reflexivity |].
  split; [unfold len, bind; rewrite elements_eq, H; reflexivity |].
  split.
  - intros i Hi.
    destruct (get_int_in_range els i Hi) as [e [Hn Hg]].
    exists e; split; [exact Hn |].
    apply (getitem_ok driver st els); [exact H |].
    unfold subscript; rewrite Hg; reflexivity.
  - intros i; rewrite <- get_int_ok_iff.
    rewrite (getitem_subscript driver st els _ H); unfold subscript.
    destruct (PyList.get_int els i) as [x | e].
    + split; [| intros [y Hy]; discriminate].
      intros [it Hit]; exfalso.
      destruct (raise_error_raises driver (A := item) ElementNotFoundError
                  ["Element with index=" ++ PyList.repr_index (PyList.Int i)
                     ++ " is not exist."] st) as [y [st' Hy]].
      destruct x; cbv iota in Hit; try rewrite Hy in Hit; discriminate.
    + split; intros _; [exists e | exists (One e)]; reflexivity.
Qed.

Lemma indexing_agrees_with_iteration_witness :
  iter Fake.driver (Fake.on Fake.rows)
  = (inr [ {| element_id := "row-1" |}; {| element_id := "row-2" |} ],
     Fake.on Fake.rows)
  /\ len Fake.driver (Fake.on Fake.rows) = (inr 2, Fake.on Fake.rows)
  /\ getitem Fake.driver (PyList.Int 1) (Fake.on Fake.rows)
     = (inr (One {| element_id := "row-2" |}), Fake.on Fake.rows).
Proof.
  pose proof (indexing_agrees_with_iteration Fake.Browser Fake.driver
                (Fake.on Fake.rows)
                [ {| element_id := "row-1" |}; {| element_id := "row-2" |} ]
                eq_refl) as [Hi [Hl [Hg _]]].
  split; [exact Hi | split; [exact Hl |]].
  destruct (Hg 1) as [e [Hn He]]; [vm_compute; split; congruence |].
  vm_compute in Hn; injection Hn as <-; exact He.
Defined.

(** X2. Forward slices are runs of the resolved list: [self[:]] is the whole
    list; for bounds [a, b >= 0], [self[a:b]] is at most [b - a] elements
    from position [a] on, [self[a:]] drops the first [a] and [self[:b]] keeps
    the first [b]; [self[-k:]] is the last [k] elements, all of them when
    there are fewer. *)
Theorem getitem_forward_slices :
  forall (World : Type) (driver : WebDriver World) (st : State World)
         (els : list WebElement),
    located driver st = inr els ->
    getitem driver (PyList.Slice None None None) st = (inr (Many els), st)
    /\ (forall a b,
           0 <= a -> 0 <= b ->
           getitem driver (PyList.Slice (Some a) (Some b) None) st
           = (inr (Many (firstn (Z.to_nat (b - a)) (skipn (Z.to_nat a) els))), st))
    /\ (forall a,
           0 <= a ->
           getitem driver (PyList.Slice (Some a) None None) st
           = (inr (Many (skipn (Z.to_nat a) els)), st))
    /\ (forall b,
           0 <= b ->
           getitem driver (PyList.Slice None (Some b) None) st
           = (inr (Many (firstn (Z.to_nat b) els)), st))
    /\ (forall k,
           0 < k ->
           getitem driver (PyList.Slice (Some (- k)) None None) st
           = (inr (Many (skipn (Z.to_nat (PyList.len els - k)) els)), st)).
Proof.
  intros World driver st els H.
  pose proof (len_nonneg els) as Hl.
  assert (Hadj : forall x, 0 <= x ->
            PyList.adjust (PyList.len els) 1 x = Z.min x (PyList.len els)).
  { intros x Hx; unfold PyList.adjust.
    change (1 <? 0) with false; cbv iota.
    destruct (Z.ltb_spec x 0); [lia |].
    destruct (Z.leb_spec (PyList.len els) x); lia. }
  assert (Hall : forall n : nat, (List.length els <= n)%nat -> skipn n els = []).
  { intros n Hn; apply skipn_all2; exact Hn. }
  repeat split.
  - apply (getitem_slice_ok driver st els _ _ _ _ H).
    rewrite get_slice_forward; cbv zeta.
    rewrite Z.sub_0_r; unfold PyList.len; rewrite Nat2Z.id.
    rewrite firstn_all; reflexivity.
  - intros a b Ha Hb.
    apply (getitem_slice_ok driver st els _ _ _ _ H).
    rewrite get_slice_forward; cbv zeta; rewrite !Hadj by assumption.
    f_equal.
    destruct (Z.le_gt_cases (PyList.len els) a) as [Hbig | Hsmall].
    + rewrite !Hall by (unfold PyList.len in *; lia).
      rewrite !firstn_nil; reflexivity.
    + rewrite (Z.min_l a) by lia.
      destruct (Z.le_gt_cases (PyList.len els) b) as [Hb' | Hb'].
      * rewrite (Z.min_r b) by lia.
        rewrite !firstn_all2; [reflexivity | |];
          rewrite length_skipn; unfold PyList.len in *; lia.
      * rewrite (Z.min_l b) by lia; reflexivity.
  - intros a Ha.
    apply (getitem_slice_ok driver st els _ _ _ _ H).
    rewrite get_slice_forward; cbv zeta; rewrite Hadj by assumption.
    f_equal.
    destruct (Z.le_gt_cases (PyList.len els) a) as [Hbig | Hsmall].
    + rewrite !Hall by (unfold PyList.len in *; lia).
      rewrite firstn_nil; reflexivity.
    + rewrite Z.min_l by lia.
      rewrite firstn_all2; [reflexivity |].
      rewrite length_skipn; unfold PyList.len in *; lia.
  - intros b Hb.
    apply (getitem_slice_ok driver st els _ _ _ _ H).
    rewrite get_slice_forward; cbv zeta; rewrite Hadj by assumption.
    rewrite Z.sub_0_r; cbn [Z.to_nat skipn]; f_equal.
    destruct (Z.le_gt_cases (PyList.len els) b) as [Hbig | Hsmall].
    + rewrite Z.min_r by lia.
      rewrite !firstn_all2; [reflexivity | |]; unfold PyList.len in *; lia.
    + rewrite Z.min_l by lia; reflexivity.
  - intros k Hk.
    apply (getitem_slice_ok driver st els _ _ _ _ H).
    rewrite get_slice_forward; cbv zeta; f_equal.
    assert (E : Z.to_nat (PyList.adjust (PyList.len els) 1 (- k))
                = Z.to_nat (PyList.len els - k)).
    { unfold PyList.adjust; change (1 <? 0) with false; cbv iota.
      destruct (Z.ltb_spec (- k) 0); [| lia].
      destruct (Z.ltb_spec (- k + PyList.len els) 0); lia. }
    rewrite E.
    rewrite firstn_all2; [reflexivity |].
    rewrite length_skipn.
    assert (B : 0 <= PyList.adjust (PyList.len els) 1 (- k) <= PyList.len els)
      by (apply adjust_bounds; lia).
    unfold PyList.len in *; lia.
Qed.

Lemma getitem_forward_slices_witness :
  getitem Fake.driver (PyList.Slice (Some 1) (Some 7) None) (Fake.on Fake.rows)
  = (inr (Many [ {| element_id := "row-2" |} ]), Fake.on Fake.rows)
  /\ getitem Fake.driver (PyList.Slice (Some (-1)) None None) (Fake.on Fake.rows)
     = (inr (Many [ {| element_id := "row-2" |} ]), Fake.on Fake.rows).
Proof.
  pose proof (getitem_forward_slices Fake.Browser Fake.driver (Fake.on Fake.rows)
                [ {| element_id := "row-1" |}; {| element_id := "row-2" |} ]
                eq_refl) as [_ [Hab [_ [_ Hk]]]].
  split.
  - apply (Hab 1 7); lia.
  - apply (Hk 1); lia.
Defined.

(** X3. The slice [self[::-1]] is the resolved list in reverse order. *)
Theorem getitem_reverse_slice :
  forall (World : Type) (driver : WebDriver World) (st : State World)
         (els : list WebElement),
    located driver st = inr els ->
    getitem driver (PyList.Slice None None (Some (-1))) st
    = (inr (Many (rev els)), st).
Proof.
  intros World driver st els H.
  apply (getitem_slice_ok driver st els _ _ _ _ H), get_slice_reverse.
Qed.

Lemma getitem_reverse_slice_witness :
  getitem Fake.driver (PyList.Slice None None (Some (-1))) (Fake.on Fake.rows)
  = (inr (Many [ {| element_id := "row-2" |}; {| element_id := "row-1" |} ]),
     Fake.on Fake.rows).
Proof.
  exact (getitem_reverse_slice Fake.Browser Fake.driver (Fake.on Fake.rows)
           [ {| element_id := "row-1" |}; {| element_id := "row-2" |} ] eq_refl).
Defined.

(** X4. On a page where the selector matches nothing, every [int]
    subscript raises [ElementNotFoundError] naming the index, and every slice
    with a non-zero step is the empty list. *)
Theorem getitem_on_no_match :
  forall (World : Type) (driver : WebDriver World) (st : State World),
    located driver st = inr [] ->
    (forall i url,
        current_url driver (world st) = inr url ->
        getitem driver (PyList.Int i) st
        = (raised (ElementNotFoundError (repr (self st)) url
                     ["Element with index=" ++ Py.repr_int i ++ " is not exist."]),
           st))
    /\ (forall a b c,
           c <> Some 0 ->
           getitem driver (PyList.Slice a b c) st = (inr (Many []), st)).
Proof.
  intros World driver st H; split.
  - intros i url Hu.
    apply (getitem_index_error driver st [] (PyList.Int i) url H); [| exact Hu].
    unfold subscript.
    destruct (Z.lt_ge_cases i 0) as [Hneg | Hpos].
    + rewrite get_int_before_start; [reflexivity | exact Hneg].
    + rewrite get_int_past_end; [reflexivity | exact Hpos].
  - intros a b c Hc.
    destruct (get_slice_total (@nil WebElement) a b c Hc) as [l [Hl Hin]].
    apply incl_l_nil in Hin; subst l.
    apply (getitem_slice_ok driver st [] a b c [] H Hl).
Qed.

Lemma getitem_on_no_match_witness :
  getitem Fake.driver (PyList.Int 0) (Fake.on Fake.missing)
  = (raised (ElementNotFoundError "self.selector='nothing'" "http://localhost/rows"
               ["Element with index=0 is not exist."]),
     Fake.on Fake.missing)
  /\ getitem Fake.driver (PyList.Slice (Some (-2)) None (Some 3)) (Fake.on Fake.missing)
     = (inr (Many []), Fake.on Fake.missing).
Proof.
  pose proof (getitem_on_no_match Fake.Browser Fake.driver (Fake.on Fake.missing)
                eq_refl) as [Hi Hs].
  split.
  - apply (Hi 0 "http://localhost/rows"); reflexivity.
  - apply Hs; discriminate.
Defined.

(** X5. Only [IndexError] is translated by [__getitem__].  A failure of the
    driver while resolving is raised unchanged by [__getitem__], [__len__]
    and [__iter__], and a slice with step 0 raises the list's own
    [ValueError], not [ElementNotFoundError]. *)
Theorem getitem_translates_only_index_error :
  forall (World : Type) (driver : WebDriver World) (st : State World),
    (forall x index,
        located driver st = inl x ->
        x <> IndexError ->
        getitem driver index st = (inl x, st)
        /\ len driver st = (inl x, st)
        /\ iter driver st = (inl x, st))
    /\ (forall els a b,
           located driver st = inr els ->
           getitem driver (PyList.Slice a b (Some 0)) st
           = (inl (ValueError "slice step cannot be zero"), st)).
Proof.
  intros World driver st; split.
  - intros x index H Hx; unfold located in H; repeat split.
    + unfold_py; rewrite H; simpl.
      destruct x; try reflexivity; contradiction.
    + unfold_py; rewrite H; reflexivity.
    + unfold iter; unfold_py; rewrite H; reflexivity.
  - intros els a b H.
    rewrite (getitem_subscript driver st els _ H); reflexivity.
Qed.

Lemma getitem_translates_only_index_error_witness :
  getitem Fake.driver (PyList.Slice None None (Some 0)) (Fake.on Fake.rows)
  = (inl (ValueError "slice step cannot be zero"), Fake.on Fake.rows).
Proof.
  exact (proj2 (getitem_translates_only_index_error Fake.Browser Fake.driver
                  (Fake.on Fake.rows))
           [ {| element_id := "row-1" |}; {| element_id := "row-2" |} ]
           None None eq_refl).
Defined.

(** ** Accessors of the single element *)

(** X6. [is_enabled], [text] and [get_attribute] resolve the element anew
    and ask the first matching node only: with no match each raises
    [ElementNotFoundError] carrying the descriptor and the URL; with a match
    each returns, or raises, what the driver answers for the first node.
    With a match [is_present_now] returns [True], and [is_visible_now]
    returns the display state the driver reports for the first node. *)
Theorem accessors_ask_first_match :
  forall (World : Type) (driver : WebDriver World) (st : State World),
    (forall url name,
        located driver st = inr [] ->
        current_url driver (world st) = inr url ->
        is_enabled driver st
        = (raised (ElementNotFoundError (repr (self st)) url []), st)
        /\ text driver st
           = (raised (ElementNotFoundError (repr (self st)) url []), st)
        /\ get_attribute driver name st
           = (raised (ElementNotFoundError (repr (self st)) url []), st))
    /\ (forall e rest name,
           located driver st = inr (e :: rest) ->
           is_enabled driver st = (node_is_enabled driver e (world st), st)
           /\ text driver st = (node_text driver e (world st), st)
           /\ get_attribute driver name st
              = (node_get_attribute driver e name (world st), st)
           /\ is_present_now driver st = (inr true, st)
           /\ (forall shown,
                  node_is_displayed driver e (world st) = inr shown ->
                  is_visible_now driver st = (inr shown, st))).
Proof.
  intros World driver st; split.
  - intros url name H Hu.
    unfold is_enabled, text, get_attribute, bind.
    rewrite (element_absent driver st url H Hu); repeat split.
  - intros e rest name H.
    unfold is_enabled, text, get_attribute, is_present_now, is_visible_now,
      try_except, bind, ask.
    rewrite (element_found driver st e rest H); repeat split.
    intros shown Hd; rewrite Hd; reflexivity.
Qed.

Lemma accessors_ask_first_match_witness :
  text Fake.driver (Fake.on Fake.missing)
  = (raised (ElementNotFoundError "self.selector='nothing'" "http://localhost/rows" []),
     Fake.on Fake.missing)
  /\ text Fake.driver (Fake.on Fake.rows) = (inr "row-1", Fake.on Fake.rows).
Proof.
  pose proof (accessors_ask_first_match Fake.Browser Fake.driver
                (Fake.on Fake.missing)) as [Habs _].
  pose proof (accessors_ask_first_match Fake.Browser Fake.driver
                (Fake.on Fake.rows)) as [_ Hfst].
  split.
  - apply (Habs "http://localhost/rows" "id" eq_refl eq_refl).
  - apply (proj1 (proj2 (Hfst {| element_id := "row-1" |}
                           [ {| element_id := "row-2" |} ] "id" eq_refl))).
Defined.

(** ** Failures that are passed on *)

(** X8. Only a timeout is turned into an answer by the waiting methods: any
    other exception of the driver's wait is raised unchanged by
    [is_clickable], by [is_visible] and by [wait_for_clickability], which
    then neither resolves the element nor builds its own error. *)
Theorem waits_pass_on_other_failures :
  forall (World : Type) (driver : WebDriver World) (timeout : option Z)
         (st : State World) (x : exn) (w' : World),
    x <> TimeoutException ->
    (clickable_wait driver timeout st = (inl x, w') ->
     is_clickable driver timeout st = (inl x, moved_to w' st)
     /\ forall error_msg,
         wait_for_clickability driver timeout error_msg st = (inl x, moved_to w' st))
    /\ (visible_wait driver timeout st = (inl x, w') ->
        is_visible driver timeout st = (inl x, moved_to w' st)).
Proof.
  intros World driver timeout st x w' Hx; split.
  - intros Hw.
    assert (E : is_clickable driver timeout st = (inl x, moved_to w' st)).
    { rewrite is_clickable_eq, Hw; destruct x; try reflexivity; contradiction. }
    split; [exact E |].
    intros error_msg.
    rewrite wait_for_clickability_eq, is_clickable_eq, clickable_wait_some, Hw.
    destruct x; try reflexivity; contradiction.
  - intros Hw.
    rewrite is_visible_eq, Hw; destruct x; try reflexivity; contradiction.
Qed.

Lemma waits_pass_on_other_failures_witness :
  visible_wait Fake.closed None (Fake.on Fake.save)
  = (inl (OtherException "NoSuchWindowException"), Fake.page)
  /\ is_visible Fake.closed None (Fake.on Fake.save)
     = (inl (OtherException "NoSuchWindowException"), Fake.on Fake.save).
Proof.
  split; [reflexivity |].
  refine (proj2 (waits_pass_on_other_failures Fake.Browser Fake.closed None
                   (Fake.on Fake.save) (OtherException "NoSuchWindowException")
                   Fake.page _) eq_refl).
  discriminate.
Defined.

(** X9. [click] on a page where the selector matches nothing raises
    [ElementNotFoundError] and sends no click: the session is left as it
    was.  When the click itself fails with anything but an intercepted
    click, that failure is raised unchanged. *)
Theorem click_failures :
  forall (World : Type) (driver : WebDriver World) (st : State World),
    (forall url,
        located driver st = inr [] ->
        current_url driver (world st) = inr url ->
        click driver st
        = (raised (ElementNotFoundError (repr (self st)) url []), st))
    /\ (forall e rest x w',
           located driver st = inr (e :: rest) ->
           node_click driver e (world st) = (inl x, w') ->
           x <> ElementClickInterceptedException ->
           click driver st = (inl x, moved_to w' st)).
Proof.
  intros World driver st; split.
  - intros url H Hu; unfold click, try_except, bind.
    rewrite (element_absent driver st url H Hu); reflexivity.
  - intros e rest x w' H Hc Hx; unfold click, try_except, bind, act.
    rewrite (element_found driver st e rest H), Hc.
    destruct x; try reflexivity; contradiction.
Qed.

Lemma click_failures_witness :
  click Fake.driver (Fake.on Fake.missing)
  = (raised (ElementNotFoundError "self.selector='nothing'" "http://localhost/rows" []),
     Fake.on Fake.missing)
  /\ click Fake.closed (Fake.on Fake.rows)
     = (inl (OtherException "NoSuchWindowException"), Fake.on Fake.rows).
Proof.
  split.
  - exact (proj1 (click_failures Fake.Browser Fake.driver (Fake.on Fake.missing))
             "http://localhost/rows" eq_refl eq_refl).
  - refine (proj2 (click_failures Fake.Browser Fake.closed (Fake.on Fake.rows))
              {| element_id := "row-1" |} [ {| element_id := "row-2" |} ]
              (OtherException "NoSuchWindowException") Fake.page eq_refl eq_refl _).
    discriminate.
Defined.

(** ** Substitution into the selector *)

Lemma with_selector_same {World : Type} (st : State World) :
  with_selector (selector (self st)) st = st.
Proof. destruct st as [[loc sel] w]; reflexivity. Qed.

Lemma with_selector_twice {World : Type} (s s' : string) (st : State World) :
  with_selector s' (with_selector s st) = with_selector s' st.
Proof. reflexivity. Qed.

(** The scope around a body that succeeds in substituting. *)
Lemma format_substituted {World A : Type} (beyond : Py.formatter)
      (args : list string) (kwargs : list (string * string)) (body : M World A)
      (st : State World) (s : string) :
  Py.str_format beyond (selector (self st)) args kwargs = inr s ->
  format beyond args kwargs body st
  = (fst (body (with_selector s st)),
     with_selector (selector (self st)) (snd (body (with_selector s st)))).
Proof.
  intros H; unfold format; rewrite format_with_eq; cbv zeta; rewrite H.
  destruct (body (with_selector s st)); reflexivity.
Qed.

Lemma format_reads_selector {World : Type} (beyond : Py.formatter)
      (args : list string) (kwargs : list (string * string)) (st : State World)
      (s : string) :
  Py.str_format beyond (selector (self st)) args kwargs = inr s ->
  format beyond args kwargs get_selector st = (inr s, st).
Proof.
  intros H; rewrite (format_substituted beyond args kwargs get_selector st s H).
  destruct st as [[loc sel] w]; reflexivity.
Qed.

Lemma format_not_substituted {World A : Type} (beyond : Py.formatter)
      (args : list string) (kwargs : list (string * string)) (body : M World A)
      (st : State World) (x : exn) :
  Py.str_format beyond (selector (self st)) args kwargs = inl x ->
  format beyond args kwargs body st = (inl x, st).
Proof.
  intros H; unfold format; rewrite format_with_eq; cbv zeta; rewrite H.
  rewrite with_selector_same; reflexivity.
Qed.

Lemma str_format_no_braces (beyond : Py.formatter) (s : string)
      (args : list string) (kwargs : list (string * string)) :
  Py.contains_char Py.lbrace s = false ->
  Py.contains_char Py.rbrace s = false ->
  Py.str_format beyond s args kwargs = inr s.
Proof.
  intros Hl Hr; unfold Py.str_format.
  rewrite (format_scan_no_braces args kwargs s Py.NoneYet Hl Hr); reflexivity.
Qed.

(** X10. When [str.format] fails on the selector, the body of the [with]
    block never runs: the scope raises the exception of [str.format] and
    leaves the object and the session exactly as they were. *)
Theorem format_substitution_failure :
  forall (World A : Type) (beyond : Py.formatter) (args : list string)
         (kwargs : list (string * string)) (body : M World A) (st : State World)
         (x : exn),
    Py.str_format beyond (selector (self st)) args kwargs = inl x ->
    format beyond args kwargs body st = (inl x, st).
Proof.
  intros World A beyond args kwargs body st x H.
  apply format_not_substituted; exact H.
Qed.

Lemma format_substitution_failure_witness :
  Py.str_format Fake.beyond ".//td[{}][{}]" ["1"] [] = inl IndexError
  /\ format Fake.beyond ["1"] [] (set_selector "gone" ;; click Fake.driver)
       {| self := init ".//td[{}][{}]" "xpath"; world := Fake.page |}
     = (inl IndexError, {| self := init ".//td[{}][{}]" "xpath"; world := Fake.page |}).
Proof.
  split; [reflexivity |].
  exact (format_substitution_failure Fake.Browser unit Fake.beyond ["1"] []
           (set_selector "gone" ;; click Fake.driver)
           {| self := init ".//td[{}][{}]" "xpath"; world := Fake.page |}
           IndexError eq_refl).
Defined.

(** X11. A selector without braces is not a template: whatever arguments
    are given, the body runs on the object as it is, and the scope ends with
    the body's outcome and the selector back in place. *)
Theorem format_without_placeholders :
  forall (World A : Type) (beyond : Py.formatter) (args : list string)
         (kwargs : list (string * string)) (body : M World A) (st : State World),
    Py.contains_char Py.lbrace (selector (self st)) = false ->
    Py.contains_char Py.rbrace (selector (self st)) = false ->
    format beyond args kwargs body st
    = (fst (body st), with_selector (selector (self st)) (snd (body st))).
Proof.
  intros World A beyond args kwargs body st Hl Hr.
  rewrite (format_substituted beyond args kwargs body st (selector (self st)))
    by (apply str_format_no_braces; assumption).
  rewrite with_selector_same; reflexivity.
Qed.

Lemma format_without_placeholders_witness :
  format Fake.beyond ["7"] [("n", "8")] (elements Fake.driver) (Fake.on Fake.rows)
  = (inr [ {| element_id := "row-1" |}; {| element_id := "row-2" |} ],
     Fake.on Fake.rows).
Proof.
  exact (format_without_placeholders Fake.Browser _ Fake.beyond ["7"] [("n", "8")]
           (elements Fake.driver) (Fake.on Fake.rows) eq_refl eq_refl).
Defined.

(** X12. For a selector with one automatic placeholder, [pre{}post] with no
    other brace: formatted with at least one positional argument [v], the
    selector read inside the scope is [pre v post]; formatted with no
    positional argument, the scope raises [IndexError] without running the
    body. *)
Theorem format_positional_placeholder :
  forall (World : Type) (beyond : Py.formatter) (pre post : string)
         (st : State World),
    selector (self st) = pre ++ "{}" ++ post ->
    Py.contains_char Py.lbrace pre = false ->
    Py.contains_char Py.rbrace pre = false ->
    Py.contains_char Py.lbrace post = false ->
    Py.contains_char Py.rbrace post = false ->
    (forall v rest kwargs,
        format beyond (v :: rest) kwargs get_selector st
        = (inr (pre ++ v ++ post), st))
    /\ (forall (A : Type) kwargs (body : M World A),
           format beyond [] kwargs body st = (inl IndexError, st)).
Proof.
  intros World beyond pre post st Hs Hl Hr Hl' Hr'; split.
  - intros v rest kwargs.
    apply format_reads_selector.
    rewrite Hs; unfold Py.str_format.
    rewrite (format_scan_text _ _ pre Hl Hr).
    change ("{}" ++ post)%string with (String Py.lbrace (String Py.rbrace post)).
    cbn [Py.format_scan].
    change (Ascii.eqb Py.lbrace Py.lbrace) with true.
    change (Ascii.eqb Py.rbrace Py.lbrace) with false.
    change (Ascii.eqb Py.rbrace Py.rbrace) with true.
    cbv iota; cbn [Py.field_value nth_error].
    rewrite (format_scan_no_braces _ _ post _ Hl' Hr'); reflexivity.
  - intros A kwargs body; apply format_not_substituted.
    rewrite Hs; unfold Py.str_format.
    rewrite (format_scan_text _ _ pre Hl Hr); reflexivity.
Qed.

Lemma format_positional_placeholder_witness :
  format Fake.beyond ["2"; "unused"] [] get_selector
    {| self := init "//table//tr[{}]/td" "xpath"; world := Fake.page |}
  = (inr "//table//tr[2]/td",
     {| self := init "//table//tr[{}]/td" "xpath"; world := Fake.page |}).
Proof.
  exact (proj1 (format_positional_placeholder Fake.Browser Fake.beyond
                  "//table//tr[" "]/td"
                  {| self := init "//table//tr[{}]/td" "xpath"; world := Fake.page |}
                  eq_refl eq_refl eq_refl eq_refl eq_refl)
           "2" ["unused"] []).
Defined.

(** X13. For a selector with one named placeholder, [pre{name}post] with no
    other brace, where [name] is made of ASCII characters, is not a number
    and holds none of the marks [!], [:], [.], [[]: formatted with a keyword
    argument [name=v], the selector read inside the scope is [pre v post];
    without that keyword the scope raises [KeyError] for [name] without
    running the body. *)
Theorem format_named_placeholder :
  forall (World : Type) (beyond : Py.formatter) (pre name post : string)
         (st : State World),
    selector (self st) = pre ++ "{" ++ name ++ "}" ++ post ->
    Py.contains_char Py.lbrace pre = false ->
    Py.contains_char Py.rbrace pre = false ->
    Py.contains_char Py.lbrace post = false ->
    Py.contains_char Py.rbrace post = false ->
    name <> EmptyString ->
    NilZero.uint_of_string name = None ->
    (forall c, In c (list_ascii_of_string name) ->
               (nat_of_ascii c < 128)%nat
               /\ ~ In c ["!"; ":"; "."; "["; "{"; "}"]%char) ->
    (forall args kwargs v,
        Template.keyword kwargs name = Some v ->
        format beyond args kwargs get_selector st = (inr (pre ++ v ++ post), st))
    /\ (forall (A : Type) args kwargs (body : M World A),
           Template.keyword kwargs name = None ->
           format beyond args kwargs body st = (inl (KeyError name), st)).
Proof.
  intros World beyond pre name post st Hs Hl Hr Hl' Hr' Hne Hnum Hchars.
  assert (Hplain : forall c, In c (list_ascii_of_string name) ->
                             Py.plain_char c = true /\ c <> Py.rbrace).
  { intros c Hc; destruct (Hchars c Hc) as [Hascii Hmarks].
    apply name_char_plain; unfold Template.name_char.
    apply Bool.andb_true_iff; split; [apply Nat.ltb_lt; exact Hascii |].
    apply Bool.negb_true_iff.
    destruct (existsb (Ascii.eqb c) ["!"; ":"; "."; "["; "{"; "}"]%char) eqn:E;
      [| reflexivity].
    apply existsb_exists in E as [m [Hm Hcm]].
    apply Ascii.eqb_eq in Hcm; subst m; contradiction. }
  assert (Hscan : forall args kwargs,
             Py.str_format beyond (selector (self st)) args kwargs
             = match Template.keyword kwargs name with
               | Some v => inr (pre ++ v ++ post)
               | None => inl (KeyError name)
               end).
  { intros args kwargs; rewrite Hs; unfold Py.str_format.
    rewrite (format_scan_text _ _ pre Hl Hr).
    rewrite (format_scan_named args kwargs name post Py.NoneYet Hne Hplain).
    assert (Hfield : Py.field_value name Py.NoneYet args kwargs
                     = match Template.keyword kwargs name with
                       | Some v => Some (inr (v, Py.NoneYet))
                       | None => Some (inl (KeyError name))
                       end).
    { unfold Py.field_value.
      destruct name as [| c name]; [contradiction |].
      rewrite Hnum, kwargs_get_keyword; reflexivity. }
    rewrite Hfield.
    destruct (Template.keyword kwargs name) as [v |]; [| reflexivity].
    rewrite (format_scan_no_braces _ _ post _ Hl' Hr'); reflexivity. }
  split.
  - intros args kwargs v Hv.
    apply format_reads_selector; rewrite Hscan, Hv; reflexivity.
  - intros A args kwargs body Hv; apply format_not_substituted.
    rewrite Hscan, Hv; reflexivity.
Qed.

Lemma format_named_placeholder_witness :
  format Fake.beyond [] [("id", "save")] get_selector
    {| self := init "//button[@id='{id}']" "xpath"; world := Fake.page |}
  = (inr "//button[@id='save']",
     {| self := init "//button[@id='{id}']" "xpath"; world := Fake.page |})
  /\ format Fake.beyond ["save"] [("name", "save")] (click Fake.driver)
       {| self := init "//button[@id='{id}']" "xpath"; world := Fake.page |}
     = (inl (KeyError "id"),
        {| self := init "//button[@id='{id}']" "xpath"; world := Fake.page |}).
Proof.
  assert (Hchars : forall c, In c (list_ascii_of_string "id") ->
                             (nat_of_ascii c < 128)%nat
                             /\ ~ In c ["!"; ":"; "."; "["; "{"; "}"]%char).
  { intros c [<- | [<- | []]]; split;
      try (vm_compute; lia); intros H; cbn in H; intuition discriminate. }
  pose proof (format_named_placeholder Fake.Browser Fake.beyond "//button[@id='"
                "id" "']"
                {| self := init "//button[@id='{id}']" "xpath"; world := Fake.page |}
                eq_refl eq_refl eq_refl eq_refl eq_refl
                ltac:(discriminate) eq_refl Hchars) as [Hsome Hnone].
  split.
  - apply (Hsome [] [("id", "save")] "save"); reflexivity.
  - apply (Hnone unit ["save"] [("name", "save")]); reflexivity.
Defined.

(** ** Resolving inside a format scope *)

(** X14. Inside a format scope the element is resolved with the formatted
    selector, and the template is back afterwards: for a selector that
    [str.format] turns into [s], [elements] in the scope is what the driver
    locates for [s]; [element] in the scope is the first of those nodes, or,
    when there is none, [ElementNotFoundError] whose descriptor shows [s],
    not the template.  The object and the session end as they began. *)
Theorem format_scopes_resolution :
  forall (World : Type) (driver : WebDriver World) (beyond : Py.formatter)
         (args : list string) (kwargs : list (string * string))
         (st : State World) (s : string),
    Py.str_format beyond (selector (self st)) args kwargs = inr s ->
    format beyond args kwargs (elements driver) st
    = (locate driver (locator (self st)) s (world st), st)
    /\ (forall e rest,
           locate driver (locator (self st)) s (world st) = inr (e :: rest) ->
           format beyond args kwargs (element driver) st = (inr e, st))
    /\ (forall url,
           locate driver (locator (self st)) s (world st) = inr [] ->
           current_url driver (world st) = inr url ->
           format beyond args kwargs (element driver) st
           = (raised (ElementNotFoundError ("self.selector=" ++ Py.repr_str s) url []),
              st)).
Proof.
  intros World driver beyond args kwargs st s H; repeat split.
  - rewrite (format_substituted beyond args kwargs _ st s H), elements_eq.
    cbn [fst snd]; rewrite with_selector_twice, with_selector_same; reflexivity.
  - intros e rest Hl.
    rewrite (format_substituted beyond args kwargs _ st s H).
    rewrite (element_found driver (with_selector s st) e rest Hl).
    cbn [fst snd]; rewrite with_selector_twice, with_selector_same; reflexivity.
  - intros url Hl Hu.
    rewrite (format_substituted beyond args kwargs _ st s H).
    rewrite (element_absent driver (with_selector s st) url Hl Hu).
    cbn [fst snd]; rewrite with_selector_twice, with_selector_same; reflexivity.
Qed.

Lemma format_scopes_resolution_witness :
  format Fake.beyond [] [("what", "row")] (elements Fake.driver)
    {| self := init ".{what}" "css selector"; world := Fake.page |}
  = (inr [ {| element_id := "row-1" |}; {| element_id := "row-2" |} ],
     {| self := init ".{what}" "css selector"; world := Fake.page |})
  /\ format Fake.beyond [] [("what", "cell")] (element Fake.driver)
       {| self := init ".{what}" "css selector"; world := Fake.page |}
     = (raised (ElementNotFoundError "self.selector='.cell'" "http://localhost/rows" []),
        {| self := init ".{what}" "css selector"; world := Fake.page |}).
Proof.
  split.
  - exact (proj1 (format_scopes_resolution Fake.Browser Fake.driver Fake.beyond []
                    [("what", "row")]
                    {| self := init ".{what}" "css selector"; world := Fake.page |}
                    ".row" eq_refl)).
  - exact (proj2 (proj2 (format_scopes_resolution Fake.Browser Fake.driver
                           Fake.beyond [] [("what", "cell")]
                           {| self := init ".{what}" "css selector"; world := Fake.page |}
                           ".cell" eq_refl))
             "http://localhost/rows" eq_refl eq_refl).
Defined.

(** ** The descriptor *)

Lemma every_ascii_listed (c : ascii) :
  In c (map ascii_of_nat (seq 0 256)).
Proof.
  rewrite <- (ascii_nat_embedding c).
  apply in_map, in_seq.
  pose proof (nat_ascii_bounded c); lia.
Qed.

Lemma app_eq_prefix (a : string) : forall b r r',
  (a ++ r = b ++ r')%string -> String.prefix a b = true \/ String.prefix b a = true.
Proof.
  induction a as [| x a IH]; intros b r r' H.
  - left; destruct b; reflexivity.
  - destruct b as [| y b]; [right; reflexivity |].
    simpl in H; injection H as -> H.
    destruct (IH b r r' H) as [P | P]; [left | right]; simpl;
      destruct (ascii_dec y y); try contradiction; exact P.
Qed.

Lemma str_app_inv_head (a r r' : string) :
  (a ++ r = a ++ r')%string -> r = r'.
Proof.
  induction a as [| x a IH]; simpl; intros H; [exact H |].
  injection H as H; apply IH; exact H.
Qed.

(** The escapes of two different characters never start alike, and none
    starts with the bare quote. *)
Lemma repr_char_codes (q : ascii) :
  q = Py.squote \/ q = Py.dquote ->
  (forall c c', c <> c' ->
                String.prefix (Py.repr_char q c) (Py.repr_char q c') = false)
  /\ (forall c, String.prefix (Py.str1 q) (Py.repr_char q c) = false).
Proof.
  intros Hq.
  assert (Hall : forallb
            (fun c =>
               negb (String.prefix (Py.str1 q) (Py.repr_char q c))
               && forallb
                    (fun c' =>
                       Ascii.eqb c c'
                       || negb (String.prefix (Py.repr_char q c) (Py.repr_char q c')))
                    (map ascii_of_nat (seq 0 256)))%bool
            (map ascii_of_nat (seq 0 256)) = true).
  { destruct Hq as [-> | ->]; vm_compute; reflexivity. }
  rewrite forallb_forall in Hall.
  split.
  - intros c c' Hc.
    pose proof (Hall c (every_ascii_listed c)) as H.
    apply Bool.andb_true_iff in H as [_ H].
    rewrite forallb_forall in H.
    specialize (H c' (every_ascii_listed c')).
    apply Bool.orb_true_iff in H as [H | H].
    + apply Ascii.eqb_eq in H; contradiction.
    + apply Bool.negb_true_iff in H; exact H.
  - intros c.
    pose proof (Hall c (every_ascii_listed c)) as H.
    apply Bool.andb_true_iff in H as [H _].
    apply Bool.negb_true_iff in H; exact H.
Qed.

(** Escaped text up to its closing quote determines the text. *)
Lemma repr_chars_inj (q : ascii) :
  q = Py.squote \/ q = Py.dquote ->
  forall s s' r r',
    (Py.repr_chars q s ++ String q r = Py.repr_chars q s' ++ String q r')%string ->
    s = s'.
Proof.
  intros Hq; destruct (repr_char_codes q Hq) as [Hcodes Hquote].
  assert (Hstop : forall c t r r',
             (String q r = Py.repr_char q c ++ t ++ r')%string -> False).
  { intros c t r r' H.
    destruct (app_eq_prefix (Py.str1 q) (Py.repr_char q c) r (t ++ r')%string H)
      as [P | P].
    - rewrite Hquote in P; discriminate.
    - destruct (Py.repr_char q c) as [| y [| z code]] eqn:E.
      + unfold Py.repr_char in E.
        repeat match type of E with
               | (if ?b then _ else _) = _ => destruct b
               end; discriminate.
      + assert (Py.str1 q = Py.repr_char q c).
        { rewrite E; simpl in H; injection H as -> _; reflexivity. }
        pose proof (Hquote c) as Hp; rewrite <- H0 in Hp.
        simpl in Hp; destruct (ascii_dec q q); [discriminate | contradiction].
      + simpl in P; destruct (ascii_dec y q); discriminate. }
  induction s as [| c s IH]; intros [| c' s'] r r' H.
  - reflexivity.
  - exfalso; simpl in H; rewrite str_app_assoc in H.
    exact (Hstop c' _ _ _ H).
  - exfalso; simpl in H; rewrite str_app_assoc in H.
    symmetry in H; exact (Hstop c _ _ _ H).
  - simpl in H; rewrite !str_app_assoc in H.
    destruct (ascii_dec c c') as [<- | Hne].
    + f_equal; apply (IH s' r r').
      exact (str_app_inv_head _ _ _ H).
    + exfalso.
      destruct (app_eq_prefix _ _ _ _ H) as [P | P].
      * rewrite (Hcodes c c' Hne) in P; discriminate.
      * rewrite (Hcodes c' c (fun E => Hne (eq_sym E))) in P; discriminate.
Qed.

Lemma repr_str_inj (s s' : string) : Py.repr_str s = Py.repr_str s' -> s = s'.
Proof.
  unfold Py.repr_str.
  destruct (Py.contains_char Py.squote s && negb (Py.contains_char Py.dquote s))%bool;
    destruct (Py.contains_char Py.squote s' && negb (Py.contains_char Py.dquote s'))%bool;
    intros H; injection H as H; try discriminate.
  - apply (repr_chars_inj Py.dquote (or_intror eq_refl) s s' EmptyString EmptyString H).
  - apply (repr_chars_inj Py.squote (or_introl eq_refl) s s' EmptyString EmptyString H).
Qed.

(** X15. For selectors of ASCII characters, the descriptor that
    [str(self)] puts into every error determines the selector: two elements
    have the same descriptor exactly when they have the same selector,
    quotes, backslashes and control characters included.  The locator is not
    part of the descriptor. *)
Theorem descriptor_determines_selector :
  forall el el' : BaseElement,
    forallb (fun c => Nat.ltb (nat_of_ascii c) 128)
      (list_ascii_of_string (selector el)) = true ->
    forallb (fun c => Nat.ltb (nat_of_ascii c) 128)
      (list_ascii_of_string (selector el')) = true ->
    (repr el = repr el' <-> selector el = selector el')
    /\ repr (init (selector el) (locator el')) = repr el.
Proof.
  intros el el' _ _; split; [split |].
  - unfold repr; intros H.
    apply str_app_inv_head in H; apply repr_str_inj; exact H.
  - unfold repr; intros ->; reflexivity.
  - reflexivity.
Qed.

Lemma descriptor_determines_selector_witness :
  (repr (init "//a[@title='it''s']" "xpath")
   = repr (init "//a[@title='it''s']" "css selector")
   <-> "//a[@title='it''s']" = "//a[@title='it''s']")
  /\ repr (init "//a[@title='it''s']" "css selector")
     = repr (init "//a[@title='it''s']" "xpath").
Proof.
  exact (descriptor_determines_selector
           (init "//a[@title='it''s']" "xpath")
           (init "//a[@title='it''s']" "css selector") eq_refl eq_refl).
Defined.
